(** * airthings.py: polling Airthings Wave devices with bounded retries

    A shallow embedding of [src/airthings.py].  The script talks to the outside
    world (the [WavePlusPlus] device client, the file system, the clock, the
    logger); every such call is recorded in a trace, and its result is given by
    an oracle that sees the trace so far.  Python exceptions are results of the
    error monad [M]; [try]/[except]/[finally] are combinators over it. *)

From Stdlib Require Import List String Ascii ZArith Lia Bool Arith DecimalString
  DecimalZ.
Import ListNotations.
Open Scope string_scope.
Open Scope nat_scope.
Set Warnings "-register-all".

(** ** Strings *)

Module Str.

(** The double quote character. *)
Definition dq : string := String (ascii_of_nat 34) EmptyString.
Definition nl : string := String (ascii_of_nat 10) EmptyString.

Fixpoint join (sep : string) (l : list string) : string :=
  match l with
  | [] => EmptyString
  | [x] => x
  | x :: rest => x ++ sep ++ join sep rest
  end.

(** [s.split(c)] for a one-character separator. *)
Fixpoint split (c : ascii) (s : string) : list string :=
  match s with
  | EmptyString => [EmptyString]
  | String a rest =>
      if Ascii.eqb a c then EmptyString :: split c rest
      else match split c rest with
           | [] => [String a EmptyString]
           | x :: xs => String a x :: xs
           end
  end.

(** ASCII white space as [str.strip] and [int] see it. *)
Definition is_space (a : ascii) : bool :=
  let n := nat_of_ascii a in
  (n =? 32) || ((9 <=? n) && (n <=? 13)) || ((28 <=? n) && (n <=? 31)).

Fixpoint lstrip (s : string) : string :=
  match s with
  | String a rest => if is_space a then lstrip rest else s
  | EmptyString => EmptyString
  end.

Fixpoint rev_acc (s acc : string) : string :=
  match s with
  | EmptyString => acc
  | String a rest => rev_acc rest (String a acc)
  end.

Definition rev (s : string) : string := rev_acc s EmptyString.

Definition strip (s : string) : string := rev (lstrip (rev (lstrip s))).

Definition of_Z (z : Z) : string := NilZero.string_of_int (Z.to_int z).
Definition of_nat (n : nat) : string := NilZero.string_of_uint (Nat.to_uint n).

Fixpoint repeat0 (n : nat) (s : string) : string :=
  match n with
  | O => s
  | S n' => String "0" (repeat0 n' s)
  end.

(** [%0Nd]: decimal, padded with zeros on the left to at least [width] digits. *)
Definition zero_pad (width n : nat) : string :=
  let s := of_nat n in repeat0 (width - String.length s) s.

Definition hex_digit (n : nat) : ascii :=
  if n <? 10 then ascii_of_nat (48 + n) else ascii_of_nat (87 + n).

(** Two lower-case hexadecimal digits of a character code. *)
Definition hex2 (a : ascii) : string :=
  let n := nat_of_ascii a in
  String (hex_digit (n / 16)) (String (hex_digit (n mod 16)) EmptyString).

Definition is_digit (a : ascii) : bool :=
  let n := nat_of_ascii a in (48 <=? n) && (n <=? 57).

Definition starts_with (p s : string) : bool := String.prefix p s.

End Str.

(** ** Python values, as [json.load] and the command line give them *)

(** A [dict] is a list of entries in insertion order, keys distinct.  Numbers
    are integers (serial numbers); a JSON float has no counterpart here. *)
Inductive pyval : Type :=
| PNone
| PBool (b : bool)
| PInt (z : Z)
| PStr (s : string)
| PList (l : list pyval)
| PDict (d : list (string * pyval)).

(** The exceptions a call can end in.  [Exception] stands for every instance of
    Python's [Exception] class ([cls] its class name, [msg] what [str(e)]
    gives); the other three are outside it, so [except Exception] lets them
    pass. *)
Inductive pyexc : Type :=
| Exception (cls msg : string)
| KeyboardInterrupt
| SystemExit (code : Z)
| BaseException (cls msg : string).

Definition is_Exception (e : pyexc) : bool :=
  match e with
  | Exception _ _ => true
  | _ => false
  end.

Definition exc_str (e : pyexc) : string :=
  match e with
  | Exception _ m => m
  | KeyboardInterrupt => EmptyString
  | SystemExit c => Str.of_Z c
  | BaseException _ m => m
  end.

Inductive result (A : Type) : Type :=
| Ok (a : A)
| Raise (e : pyexc).
Arguments Ok {A} a.
Arguments Raise {A} e.

Module Py.

Definition type_name (v : pyval) : string :=
  match v with
  | PNone => "NoneType"
  | PBool _ => "bool"
  | PInt _ => "int"
  | PStr _ => "str"
  | PList _ => "list"
  | PDict _ => "dict"
  end.

(** [bool(v)]. *)
Definition truthy (v : pyval) : bool :=
  match v with
  | PNone => false
  | PBool b => b
  | PInt z => negb (z =? 0)%Z
  | PStr s => negb (String.length s =? 0)
  | PList l => negb (List.length l =? 0)
  | PDict d => negb (List.length d =? 0)
  end.

Fixpoint contains (a : ascii) (s : string) : bool :=
  match s with
  | EmptyString => false
  | String b rest => Ascii.eqb a b || contains a rest
  end.

Definition sq : ascii := ascii_of_nat 39.
Definition bs : ascii := ascii_of_nat 92.

(** One character of [repr] of a [str] quoted with [q] (ASCII strings). *)
Definition repr_char (q a : ascii) : string :=
  let n := nat_of_ascii a in
  if Ascii.eqb a bs then String bs (String bs EmptyString)
  else if Ascii.eqb a q then String bs (String q EmptyString)
  else if n =? 10 then String bs "n"
  else if n =? 13 then String bs "r"
  else if n =? 9 then String bs "t"
  else if (n <? 32) || (126 <? n) then String bs (String "x" (Str.hex2 a))
  else String a EmptyString.

Fixpoint repr_chars (q : ascii) (s : string) : string :=
  match s with
  | EmptyString => EmptyString
  | String a rest => repr_char q a ++ repr_chars q rest
  end.

(** [repr(s)]: single quotes, unless [s] holds one and no double quote. *)
Definition repr_str (s : string) : string :=
  let q := if contains sq s && negb (contains (ascii_of_nat 34) s)
           then ascii_of_nat 34 else sq in
  String q (repr_chars q s ++ String q EmptyString).

Fixpoint repr (v : pyval) : string :=
  match v with
  | PNone => "None"
  | PBool true => "True"
  | PBool false => "False"
  | PInt z => Str.of_Z z
  | PStr s => repr_str s
  | PList l => "[" ++ Str.join ", " (map repr l) ++ "]"
  | PDict d =>
      "{" ++ Str.join ", "
               (map (fun kv => match kv with
                               | (k, x) => repr_str k ++ ": " ++ repr x
                               end) d) ++ "}"
  end.

(** [str(v)], what an f-string puts for [{v}]. *)
Definition str (v : pyval) : string :=
  match v with
  | PStr s => s
  | _ => repr v
  end.

Fixpoint lookup (key : string) (d : list (string * pyval)) : option pyval :=
  match d with
  | [] => None
  | (k, v) :: rest => if String.eqb k key then Some v else lookup key rest
  end.

(** [v.get(key, default)]. *)
Definition get (v : pyval) (key : string) (default : pyval) : result pyval :=
  match v with
  | PDict d =>
      match lookup key d with
      | Some x => Ok x
      | None => Ok default
      end
  | _ => Raise (Exception "AttributeError"
                  ("'" ++ type_name v ++ "' object has no attribute 'get'"))
  end.

(** [v[key]] for a string key. *)
Definition getitem (v : pyval) (key : string) : result pyval :=
  match v with
  | PDict d =>
      match lookup key d with
      | Some x => Ok x
      | None => Raise (Exception "KeyError" (repr_str key))
      end
  | PList _ =>
      Raise (Exception "TypeError" "list indices must be integers or slices, not str")
  | PStr _ =>
      Raise (Exception "TypeError" "string indices must be integers, not 'str'")
  | _ =>
      Raise (Exception "TypeError"
               ("'" ++ type_name v ++ "' object is not subscriptable"))
  end.

(** The digits of an integer literal: single underscores between digits only. *)
Inductive lit_state : Type := AtStart | AfterDigit | AfterUnderscore.

Fixpoint digits (st : lit_state) (acc : Z) (s : string) : option Z :=
  match s with
  | EmptyString =>
      match st with
      | AfterDigit => Some acc
      | _ => None
      end
  | String a rest =>
      if Str.is_digit a
      then digits AfterDigit (10 * acc + Z.of_nat (nat_of_ascii a - 48))%Z rest
      else if Ascii.eqb a "_"
           then match st with
                | AfterDigit => digits AfterUnderscore acc rest
                | _ => None
                end
           else None
  end.

(** [int(s)] for a [str] in base 10, [None] where Python raises [ValueError]. *)
Definition int_of_str (s : string) : option Z :=
  match Str.strip s with
  | String "-" rest => option_map Z.opp (digits AtStart 0%Z rest)
  | String "+" rest => digits AtStart 0%Z rest
  | t => digits AtStart 0%Z t
  end.

(** [int(v)]. *)
Definition int (v : pyval) : result Z :=
  match v with
  | PInt z => Ok z
  | PBool b => Ok (if b then 1 else 0)%Z
  | PStr s =>
      match int_of_str s with
      | Some z => Ok z
      | None => Raise (Exception "ValueError"
                         ("invalid literal for int() with base 10: " ++ repr_str s))
      end
  | _ => Raise (Exception "TypeError"
                  ("int() argument must be a string, a bytes-like object or a real number, not '"
                   ++ type_name v ++ "'"))
  end.

(** What [for x in v] iterates over. *)
Definition iter (v : pyval) : result (list pyval) :=
  match v with
  | PList l => Ok l
  | PDict d => Ok (map (fun kv => PStr (fst kv)) d)
  | PStr s => Ok (map (fun a => PStr (String a EmptyString)) (list_ascii_of_string s))
  | _ => Raise (Exception "TypeError"
                  ("'" ++ type_name v ++ "' object is not iterable"))
  end.

(** [os.path.join(a, b)] on POSIX. *)
Definition path_join (a b : string) : string :=
  if Str.starts_with "/" b then b
  else if (String.length a =? 0) || Str.starts_with "/" (Str.rev a) then a ++ b
  else a ++ "/" ++ b.

End Py.

(** ** Time stamps *)

(** What [datetime.now()] returns, to the second. *)
Record datetime : Type := mkDatetime {
  year : nat; month : nat; day : nat;
  hour : nat; minute : nat; second : nat
}.

(** [strftime("%Y-%m-%d")]. *)
Definition strftime_date (t : datetime) : string :=
  Str.zero_pad 4 (year t) ++ "-" ++ Str.zero_pad 2 (month t) ++ "-"
  ++ Str.zero_pad 2 (day t).

(** [strftime("%Y-%m-%d-%H-%M-%S")]. *)
Definition strftime_stamp (t : datetime) : string :=
  strftime_date t ++ "-" ++ Str.zero_pad 2 (hour t) ++ "-"
  ++ Str.zero_pad 2 (minute t) ++ "-" ++ Str.zero_pad 2 (second t).

(** ** JSON text of a key *)

Module Json.

(** One character of a JSON string as [json] writes it with [ensure_ascii]. *)
Definition escape_char (a : ascii) : string :=
  let n := nat_of_ascii a in
  if n =? 34 then String Py.bs Str.dq
  else if n =? 92 then String Py.bs (String Py.bs EmptyString)
  else if n =? 10 then String Py.bs "n"
  else if n =? 13 then String Py.bs "r"
  else if n =? 9 then String Py.bs "t"
  else if n =? 8 then String Py.bs "b"
  else if n =? 12 then String Py.bs "f"
  else if (n <? 32) || (126 <? n) then String Py.bs ("u00" ++ Str.hex2 a)
  else String a EmptyString.

Fixpoint escape (s : string) : string :=
  match s with
  | EmptyString => EmptyString
  | String a rest => escape_char a ++ escape rest
  end.

Definition quoted (s : string) : string := Str.dq ++ escape s ++ Str.dq.

End Json.

(** ** The outside world *)

Inductive level : Type := INFO | WARNING | ERROR.

(** A [WavePlusPlus] object, named by the order of its creation. *)
Definition handle : Type := nat.

(** The calls the script makes to its collaborators, in the order made. *)
Inductive event : Type :=
| EvParseArgs
| EvExists (path : string)
| EvLoad (path : string)
| EvMakedirs (path : string)
| EvFileHandler (path : string)
| EvNow
| EvLog (lvl : level) (msg : string)
| EvNew (h : handle) (serial : Z)
| EvConnect (h : handle)
| EvRead (h : handle)
| EvDisconnect (h : handle)
| EvSleep (seconds : nat)
| EvWrite (path content : string).

(** [argparse]'s namespace: [--config] (default [config.json]) and
    [--device-serial] (default [None]). *)
Record namespace : Type := mkArgs {
  config : string;
  device_serial : option string
}.

Definition is_new (e : event) : bool :=
  match e with EvNew _ _ => true | _ => false end.

(** The number of [WavePlusPlus] objects created so far; the next one's name. *)
Definition created (tr : list event) : nat := List.length (filter is_new tr).

Section Script.

(** What a sensor channel reads (a number or null) is opaque to the script;
    [json_value] is the text [json.dump] writes for it. *)
Variable value : Type.
Variable json_value : value -> string.

(** A Snapshot: the channels in insertion order. *)
Definition snapshot : Type := list (string * value).

(** Each collaborator answers from the trace of calls made before. *)
Record World : Type := mkWorld {
  parse_args : result namespace;
  path_exists : list event -> string -> bool;
  json_load : list event -> string -> result pyval;
  os_makedirs : list event -> string -> result unit;
  file_handler : list event -> string -> result unit;
  datetime_now : list event -> datetime;
  device_new : list event -> Z -> result unit;
  device_connect : list event -> handle -> result unit;
  device_read : list event -> handle -> result (option snapshot);
  device_disconnect : list event -> handle -> result unit;
  time_sleep : list event -> nat -> result unit;
  file_write : list event -> string -> string -> result unit
}.

(** The part of [main]'s frame that outlives an exception: the trace, and the
    local variables [waveplus] ([None]: not yet in [locals()]) and [sensors]. *)
Record frame : Type := mkFrame {
  trace : list event;
  waveplus : option handle;
  sensors : option snapshot
}.

Definition start : frame := mkFrame [] None None.

Definition record (fr : frame) (e : event) : frame :=
  mkFrame (trace fr ++ [e])%list (waveplus fr) (sensors fr).

(** *** The monad of the script: a frame threaded through, exceptions as results *)

Definition M (A : Type) : Type := frame -> frame * result A.

Definition ret {A : Type} (a : A) : M A := fun fr => (fr, Ok a).

Definition bind {A B : Type} (m : M A) (k : A -> M B) : M B :=
  fun fr =>
    match m fr with
    | (fr', Ok a) => k a fr'
    | (fr', Raise e) => (fr', Raise e)
    end.

Definition lift {A : Type} (r : result A) : M A := fun fr => (fr, r).

Notation "x <- m ;; k" := (bind m (fun x => k))
  (at level 61, m at next level, right associativity).
Notation "m ;; k" := (bind m (fun _ => k))
  (at level 61, right associativity).

(** [try: body except Exception as e: handler e]. *)
Definition try_except_Exception {A : Type} (body : M A) (handler : pyexc -> M A) : M A :=
  fun fr =>
    match body fr with
    | (fr', Raise e) => if is_Exception e then handler e fr' else (fr', Raise e)
    | done => done
    end.

(** [try: body except: pass]. *)
Definition try_except_pass (body : M unit) : M unit :=
  fun fr => (fst (body fr), Ok tt).

(** [try: body finally: final]. *)
Definition try_finally {A : Type} (body : M A) (final : M unit) : M A :=
  fun fr =>
    match body fr with
    | (fr', r) =>
        match final fr' with
        | (fr'', Ok _) => (fr'', r)
        | (fr'', Raise e) => (fr'', Raise e)
        end
    end.

Variable w : World.

(** A call: recorded, and answered from the trace before it. *)
Definition call {A : Type} (e : event) (answer : list event -> result A) : M A :=
  fun fr => (record fr e, answer (trace fr)).

Definition log (lvl : level) (msg : string) : M unit :=
  fun fr => (record fr (EvLog lvl msg), Ok tt).

Definition now : M datetime :=
  fun fr => (record fr EvNow, Ok (datetime_now w (trace fr))).

Definition sleep (seconds : nat) : M unit :=
  call (EvSleep seconds) (fun tr => time_sleep w tr seconds).

(** [os.makedirs(path, exist_ok=True)]; a path that is no [str] is a [TypeError]. *)
Definition makedirs (path : pyval) : M unit :=
  match path with
  | PStr p => call (EvMakedirs p) (fun tr => os_makedirs w tr p)
  | _ => lift (Raise (Exception "TypeError"
                 ("expected str, bytes or os.PathLike object, not " ++ Py.type_name path)))
  end.

(** [os.path.join(a, b)]. *)
Definition os_path_join (a : pyval) (b : string) : M string :=
  match a with
  | PStr p => ret (Py.path_join p b)
  | _ => lift (Raise (Exception "TypeError"
                 ("expected str, bytes or os.PathLike object, not " ++ Py.type_name a)))
  end.

(** [WavePlusPlus(serial)]. *)
Definition WavePlusPlus (serial : Z) : M handle :=
  fun fr =>
    let h := created (trace fr) in
    (record fr (EvNew h serial),
     match device_new w (trace fr) serial with
     | Ok _ => Ok h
     | Raise e => Raise e
     end).

Definition connect (h : handle) : M unit :=
  call (EvConnect h) (fun tr => device_connect w tr h).

Definition read (h : handle) : M (option snapshot) :=
  call (EvRead h) (fun tr => device_read w tr h).

Definition disconnect (h : handle) : M unit :=
  call (EvDisconnect h) (fun tr => device_disconnect w tr h).

Definition assign_waveplus (h : handle) : M unit :=
  fun fr => (mkFrame (trace fr) (Some h) (sensors fr), Ok tt).

Definition assign_sensors (s : option snapshot) : M unit :=
  fun fr => (mkFrame (trace fr) (waveplus fr) s, Ok tt).

Definition load_sensors : M (option snapshot) := fun fr => (fr, Ok (sensors fr)).

(** [bool(sensors)]: [None] and the empty mapping are false. *)
Definition sensors_truthy (s : option snapshot) : bool :=
  match s with
  | Some (_ :: _) => true
  | _ => false
  end.

(** *** [json.dump(sensors, fh, indent=4, sort_keys=False)] *)

Definition json_member (kv : string * value) : string :=
  "    " ++ Json.quoted (fst kv) ++ ": " ++ json_value (snd kv).

Definition json_dump (s : option snapshot) : string :=
  match s with
  | None => "null"
  | Some [] => "{}"
  | Some items =>
      "{" ++ Str.nl ++ Str.join ("," ++ Str.nl) (map json_member items)
      ++ Str.nl ++ "}"
  end.

(** [with open(path, 'w') as fh: json.dump(...)], as one call. *)
Definition write (path content : string) : M unit :=
  call (EvWrite path content) (fun tr => file_write w tr path content).

(** *** [load_config] (lines 47-57) *)

Definition load_config (config_path : string) : M pyval :=
  fun fr =>
    let fr1 := record fr (EvExists config_path) in
    if negb (path_exists w (trace fr) config_path) then (fr1, Ok (PDict []))
    else
      try_except_Exception
        (call (EvLoad config_path) (fun tr => json_load w tr config_path))
        (fun e =>
           log ERROR ("Failed to load config file " ++ config_path ++ ": " ++ exc_str e) ;;
           ret (PDict []))
        fr1.

(** *** [parse_device_serials] (lines 59-70) *)

Fixpoint all_some {A : Type} (l : list (option A)) : option (list A) :=
  match l with
  | [] => Some []
  | None :: _ => None
  | Some a :: rest => option_map (cons a) (all_some rest)
  end.

Definition descriptor (z : Z) : pyval :=
  PDict [("name", PNone); ("serial", PInt z)].

Definition parse_device_serials (serial_string : string) : result (list pyval) :=
  match all_some (map (fun x => Py.int_of_str (Str.strip x))
                      (Str.split "," serial_string)) with
  | Some zs => Ok (map descriptor zs)
  | None =>
      Raise (Exception "ValueError"
               ("Invalid serial number passed. Must be integers separated by commas. Received: "
                ++ serial_string))
  end.

(** *** [setup_logging] (lines 11-45) *)

Definition setup_logging (config : pyval) : M unit :=
  logging <- lift (Py.get config "logging" (PDict [])) ;;
  enabled <- lift (Py.get logging "enabled" (PBool false)) ;;
  if Py.truthy enabled then
    logging' <- lift (Py.get config "logging" (PDict [])) ;;
    logfile_config <- lift (Py.get logging' "logfile" (PDict [])) ;;
    file_enabled <- lift (Py.get logfile_config "enabled" (PBool false)) ;;
    if Py.truthy file_enabled then
      log_path <- lift (Py.get logfile_config "path" (PStr "logs")) ;;
      makedirs log_path ;;
      dt <- now ;;
      let log_file := "WavePlusPlus-" ++ strftime_date dt ++ ".log" in
      log_file_path <- os_path_join log_path log_file ;;
      call (EvFileHandler log_file_path) (fun tr => file_handler w tr log_file_path)
    else ret tt
  else ret tt.

(** *** The acquisition loop (lines 116-144) *)

(** How the body of a [for] loop ends when it raises nothing. *)
Inductive flow : Type := Next | Break.

(** Lines 119-128, the body of the [try]. *)
Definition try_block (attempt : nat) (serial : Z) : M flow :=
  h <- WavePlusPlus serial ;;
  assign_waveplus h ;;
  connect h ;;
  s <- read h ;;
  assign_sensors s ;;
  disconnect h ;;
  if sensors_truthy s then
    log INFO "Successfully queried device." ;;
    ret Break
  else
    log WARNING ("Failed to query device on attempt " ++ Str.of_nat (attempt + 1)
                 ++ ". Trying again in 5 seconds.") ;;
    ret Next.

(** Lines 130-133, the handler of [except Exception as e]. *)
Definition except_block (attempt : nat) (serial : Z) (e : pyexc) : M flow :=
  log ERROR ("Error querying device " ++ Str.of_Z serial ++ ": " ++ exc_str e) ;;
  (if attempt <? 4 then sleep 5 else ret tt) ;;
  ret Next.

(** Lines 134-140, the [finally]: disconnect whatever [waveplus] is bound to,
    whatever that raises. *)
Definition finally_block : M unit :=
  try_except_pass
    (fun fr =>
       match waveplus fr with
       | Some h => disconnect h fr
       | None => (fr, Ok tt)
       end).

(** One attempt: lines 118-140. *)
Definition attempt_body (serial : Z) (attempt : nat) : M flow :=
  try_finally
    (try_except_Exception (try_block attempt serial) (except_block attempt serial))
    finally_block.

(** How the [for] loop ends: by [break], or by running out ([else]). *)
Inductive loop_end : Type := Broke | Exhausted.

Fixpoint for_attempts (serial : Z) (attempts : list nat) : M loop_end :=
  match attempts with
  | [] => ret Exhausted
  | attempt :: rest =>
      f <- attempt_body serial attempt ;;
      match f with
      | Break => ret Broke
      | Next => for_attempts serial rest
      end
  end.

(** [for attempt in range(5)]. *)
Definition acquire (serial : Z) : M loop_end := for_attempts serial (seq 0 5).

(** *** Saving (lines 146-156) *)

Definition data_file_name (serial : Z) (t : datetime) : string :=
  "WavePlusPlus-" ++ Str.of_Z serial ++ "-" ++ strftime_stamp t ++ ".json".

Definition save (data_path : pyval) (serial : Z) : M unit :=
  t <- now ;;
  let data_file := data_file_name serial t in
  data_file_path <- os_path_join data_path data_file ;;
  try_except_Exception
    (s <- load_sensors ;;
     write data_file_path (json_dump s) ;;
     log INFO ("Data saved to " ++ data_file_path))
    (fun e =>
       log ERROR ("Failed to save data to " ++ data_file_path ++ ": " ++ exc_str e)).

(** *** One device (lines 111-156), and the loop over the devices *)

Definition query_message (device_name : pyval) (serial : Z) : string :=
  "Querying Device " ++ Py.str device_name ++ " (Serial: " ++ Str.of_Z serial ++ ")".

Definition device_body (data_path : pyval) (device : pyval) : M unit :=
  item <- lift (Py.getitem device "serial") ;;
  serial <- lift (Py.int item) ;;
  device_name <- lift (Py.get device "name" (PStr ("Device-" ++ Str.of_Z serial))) ;;
  log INFO (query_message device_name serial) ;;
  assign_sensors None ;;
  e <- acquire serial ;;
  match e with
  | Exhausted =>
      log WARNING ("Failed to query device " ++ Str.of_Z serial
                   ++ " after five tries. Giving up!")
  | Broke => save data_path serial
  end.

Fixpoint for_devices (data_path : pyval) (devices : list pyval) : M unit :=
  match devices with
  | [] => ret tt
  | device :: rest => device_body data_path device ;; for_devices data_path rest
  end.

(** *** [main] (lines 72-156) *)

Definition cli_config : pyval := PDict [("logging", PDict [("enabled", PBool true)])].

(** Lines 84-99: the devices, the configuration and the output path. *)
Definition resolve (args : namespace) : M (pyval * pyval * pyval) :=
  match device_serial args with
  | Some (String a rest) =>
      devices <- lift (parse_device_serials (String a rest)) ;;
      ret (PList devices, cli_config, PStr "data")
  | _ =>
      cfg <- load_config (config args) ;;
      if negb (Py.truthy cfg) then
        lift (Raise (Exception "FileNotFoundError"
                       "No devices passed and no config.json found."))
      else
        devices <- lift (Py.get cfg "devices" (PList [])) ;;
        output <- lift (Py.get cfg "output" (PDict [])) ;;
        data_path <- lift (Py.get output "path" (PStr "data")) ;;
        ret (devices, cfg, data_path)
  end.

Definition main : M unit :=
  args <- call EvParseArgs (fun _ => parse_args w) ;;
  r <- resolve args ;;
  match r with
  | (devices, cfg, data_path) =>
      setup_logging cfg ;;
      log INFO "Script Initialized" ;;
      makedirs data_path ;;
      log INFO ("Output path: " ++ Py.str data_path) ;;
      items <- lift (Py.iter devices) ;;
      for_devices data_path items
  end.

(** *** The [__main__] guard (lines 158-166) and the exit status *)

(** [sys.exit(code)]. *)
Definition sys_exit (code : Z) : M unit := lift (Raise (SystemExit code)).

Definition guard : M unit :=
  fun fr =>
    match main fr with
    | (fr', Raise KeyboardInterrupt) =>
        (log INFO "Script interrupted by user" ;; sys_exit 0) fr'
    | (fr', Raise (Exception cls msg)) =>
        (log ERROR ("Script failed with error: " ++ msg) ;; sys_exit 1) fr'
    | done => done
    end.

(** What the interpreter exits with: 0 when the script runs off its end, the
    code of a [SystemExit], 1 for any other exception that reaches it. *)
Definition exit_status (r : result unit) : Z :=
  match r with
  | Ok _ => 0
  | Raise (SystemExit code) => code
  | Raise _ => 1
  end.

Definition script : list event * Z :=
  match guard start with
  | (fr, r) => (trace fr, exit_status r)
  end.

End Script.

Arguments mkWorld {value}.
Arguments mkFrame {value}.
Arguments parse_args {value} w.
Arguments path_exists {value} w _ _.
Arguments json_load {value} w _ _.
Arguments os_makedirs {value} w _ _.
Arguments file_handler {value} w _ _.
Arguments datetime_now {value} w _.
Arguments device_new {value} w _ _.
Arguments device_connect {value} w _ _.
Arguments device_read {value} w _ _.
Arguments device_disconnect {value} w _ _.
Arguments time_sleep {value} w _ _.
Arguments file_write {value} w _ _ _.
Arguments record {value} fr e.
Arguments start {value}.
Arguments trace {value} f.
Arguments waveplus {value} f.
Arguments sensors {value} f.
Arguments sensors_truthy {value} s.
Arguments ret {value A} a.
Arguments try_block {value} w attempt serial.
Arguments except_block {value} w attempt serial e.
Arguments finally_block {value} w.
Arguments attempt_body {value} w serial attempt.
Arguments for_attempts {value} w serial attempts.
Arguments acquire {value} w serial.
Arguments save {value} json_value w data_path serial.
Arguments device_body {value} json_value w data_path device.
Arguments for_devices {value} json_value w data_path devices.
Arguments load_config {value} w config_path.
Arguments setup_logging {value} w config.
Arguments resolve {value} w args.
Arguments main {value} json_value w.
Arguments guard {value} json_value w.
Arguments script {value} json_value w.
Arguments json_dump {value} json_value s.
Arguments json_member {value} json_value kv.
Arguments log {value} lvl msg.


(** ** Reading a trace *)

(** The events of [tr'] that come after its first [length tr]. *)
Definition since (tr tr' : list event) : list event := skipn (List.length tr) tr'.

Definition is_disconnect (h : handle) (e : event) : bool :=
  match e with EvDisconnect h' => h' =? h | _ => false end.

Definition is_sleep (e : event) : bool :=
  match e with EvSleep _ => true | _ => false end.

Definition is_write (e : event) : bool :=
  match e with EvWrite _ _ => true | _ => false end.

Definition is_query (e : event) : bool :=
  match e with
  | EvLog INFO msg => Str.starts_with "Querying Device " msg
  | _ => false
  end.

Definition is_fatal_report (e : event) : bool :=
  match e with
  | EvLog ERROR msg => Str.starts_with "Script failed with error: " msg
  | _ => false
  end.

Definition is_error (e : event) : bool :=
  match e with EvLog ERROR _ => true | _ => false end.

(** The handles that calls on a [WavePlusPlus] object are made on. *)
Definition used_handle (e : event) : option handle :=
  match e with
  | EvConnect h | EvRead h | EvDisconnect h => Some h
  | _ => None
  end.

Definition count (p : event -> bool) (evs : list event) : nat :=
  List.length (filter p evs).

(** The events one attempt can add to the trace. *)
Definition attempt_event (e : event) : bool :=
  match e with
  | EvNew _ _ | EvConnect _ | EvRead _ | EvDisconnect _ | EvSleep _ => true
  | EvLog INFO msg => String.eqb msg "Successfully queried device."
  | EvLog _ _ => true
  | _ => false
  end.

(** A result that is no exception outside [Exception]. *)
Definition ordinary {A : Type} (r : result A) : Prop :=
  match r with
  | Ok _ => True
  | Raise e => is_Exception e = true
  end.

(** A world without interrupts: what the device client and the file system
    raise are instances of [Exception], and [sleep] returns. *)
Record orderly {value : Type} (w : World value) : Prop := mkOrderly {
  new_ordinary : forall tr serial, ordinary (device_new w tr serial);
  connect_ordinary : forall tr h, ordinary (device_connect w tr h);
  read_ordinary : forall tr h, ordinary (device_read w tr h);
  disconnect_ordinary : forall tr h, ordinary (device_disconnect w tr h);
  write_ordinary : forall tr path content, ordinary (file_write w tr path content);
  sleep_returns : forall tr seconds, time_sleep w tr seconds = Ok tt
}.

(** The client answers an attempt without raising, and [read] gives [r]: the
    four calls of lines 119-122, each on the trace the ones before left. *)
Definition clean_read {value : Type} (w : World value) (serial : Z)
    (fr : frame value) (r : option (snapshot value)) : Prop :=
  let h := created (trace fr) in
  let t1 := (trace fr ++ [EvNew h serial])%list in
  let t2 := (t1 ++ [EvConnect h])%list in
  let t3 := (t2 ++ [EvRead h])%list in
  device_new w (trace fr) serial = Ok tt
  /\ device_connect w t1 h = Ok tt
  /\ device_read w t2 h = Ok r
  /\ device_disconnect w t3 h = Ok tt.

(** [connect] and [read] of an attempt both return, so line 122 is reached. *)
Definition read_returns {value : Type} (w : World value) (serial : Z)
    (fr : frame value) : bool :=
  let h := created (trace fr) in
  let t1 := (trace fr ++ [EvNew h serial])%list in
  match device_connect w t1 h with
  | Ok _ =>
      match device_read w (t1 ++ [EvConnect h])%list h with
      | Ok _ => true
      | Raise _ => false
      end
  | Raise _ => false
  end.

(** Every call on a [WavePlusPlus] object among [evs] is on [h]. *)
Definition only_handle (h : handle) (evs : list event) : bool :=
  forallb (fun e => match used_handle e with
                    | Some h' => h' =? h
                    | None => true
                    end) evs.

(** *** Reading a device descriptor and a run *)

(** Line 111: [int(device['serial'])]. *)
Definition serial_of (device : pyval) : result Z :=
  match Py.getitem device "serial" with
  | Ok item => Py.int item
  | Raise e => Raise e
  end.

(** Line 112: [device.get('name', f"Device-{serial}")]. *)
Definition name_of (device : pyval) (serial : Z) : result pyval :=
  Py.get device "name" (PStr ("Device-" ++ Str.of_Z serial)).

(** The frame at line 117, when the acquisition loop of a device starts. *)
Definition polling {value : Type} (fr : frame value) (device_name : pyval)
    (serial : Z) : frame value :=
  mkFrame (trace fr ++ [EvLog INFO (query_message device_name serial)])%list
          (waveplus fr) None.

(** The log line that closes the work on one device: lines 143, 154 and 156. *)
Inductive report (serial : Z) : event -> Prop :=
| report_gave_up :
    report serial
      (EvLog WARNING ("Failed to query device " ++ Str.of_Z serial
                      ++ " after five tries. Giving up!"))
| report_saved (path : string) :
    report serial (EvLog INFO ("Data saved to " ++ path))
| report_not_saved (path msg : string) :
    report serial (EvLog ERROR ("Failed to save data to " ++ path ++ ": " ++ msg)).

(** The events of the work on one descriptor: its [Querying Device] line, then
    events that are no such line, then its report. *)
Inductive device_run (device : pyval) : list event -> Prop :=
| device_run_intro (serial : Z) (device_name : pyval) (body : list event)
    (last : event) :
    serial_of device = Ok serial ->
    name_of device serial = Ok device_name ->
    count is_query body = 0 ->
    report serial last ->
    device_run device
      (EvLog INFO (query_message device_name serial) :: body ++ [last])%list.

(** A descriptor whose serial is there and converts to an integer. *)
Definition has_serial (device : pyval) : Prop := exists serial, serial_of device = Ok serial.

(** ** Shapes of texts *)

(** [pattern] read with [d] for a decimal digit and any other character for
    itself. *)
Fixpoint matches (pattern s : string) : bool :=
  match pattern, s with
  | EmptyString, EmptyString => true
  | String p pattern', String a s' =>
      (if Ascii.eqb p "d" then Str.is_digit a else Ascii.eqb p a)
      && matches pattern' s'
  | _, _ => false
  end.

(** The invariants of a [datetime]. *)
Definition valid_datetime (t : datetime) : bool :=
  (1 <=? year t) && (year t <? 100 * 100) && (1 <=? month t) && (month t <=? 12)
  && (1 <=? day t) && (day t <=? 31) && (hour t <? 24) && (minute t <? 60)
  && (second t <? 60).

(** ** Reading the configuration *)

(** No [--device-serial], or an empty one: line 84 takes the [else]. *)
Definition no_cli_serials (args : namespace) : Prop :=
  device_serial args = None \/ device_serial args = Some EmptyString.

(** The configuration file is absent, cannot be loaded, or loads to a false
    value; [load_config] is called right after the arguments are parsed. *)
Definition config_unusable {value : Type} (w : World value) (path : string) : Prop :=
  path_exists w [EvParseArgs] path = false
  \/ (path_exists w [EvParseArgs] path = true
      /\ exists cls msg,
           json_load w [EvParseArgs; EvExists path] path = Raise (Exception cls msg))
  \/ (path_exists w [EvParseArgs] path = true
      /\ exists v,
           json_load w [EvParseArgs; EvExists path] path = Ok v
           /\ Py.truthy v = false).

Definition fatal_report : event :=
  EvLog ERROR "Script failed with error: No devices passed and no config.json found.".

(** ** Scenarios: concrete device clients and runs *)

Module Scenario.

(** Sensor values are integers here, written in decimal. *)
Definition reading : snapshot Z := [("radon", 12%Z); ("humidity", 40%Z)].

Definition noon : datetime := mkDatetime 2024 3 9 12 0 5.

(** [--device-serial 7]. *)
Definition one_device : namespace := mkArgs "config.json" (Some "7").

(** No option on the command line. *)
Definition no_args : namespace := mkArgs "config.json" None.

(** A world given by its command line, its configuration file ([None]: there
    is none) and its device client; the clock stands at [noon], and every
    other call returns, but for [write], which raises when [full] says so. *)
Definition world (cli : namespace) (cfg : option pyval)
    (new : list event -> Z -> result unit)
    (connect : list event -> handle -> result unit)
    (read : list event -> handle -> result (option (snapshot Z)))
    (disconnect : list event -> handle -> result unit)
    (full : list event -> bool) : World Z :=
  mkWorld (Ok cli)
    (fun _ _ => match cfg with Some _ => true | None => false end)
    (fun _ _ => match cfg with
                | Some c => Ok c
                | None => Raise (Exception "FileNotFoundError" "config.json")
                end)
    (fun _ _ => Ok tt) (fun _ _ => Ok tt) (fun _ => noon)
    new connect read disconnect
    (fun _ _ => Ok tt)
    (fun tr _ _ => if full tr
                   then Raise (Exception "OSError" "No space left on device")
                   else Ok tt).

Definition never (tr : list event) : bool := false.

(** The client always reads a Snapshot. *)
Definition healthy : World Z :=
  world (mkArgs "config.json" (Some "2930012345")) None
    (fun _ _ => Ok tt) (fun _ _ => Ok tt) (fun _ _ => Ok (Some reading))
    (fun _ _ => Ok tt) never.

(** The client reads nothing from the first two objects, then a Snapshot. *)
Definition third_time : World Z :=
  world one_device None
    (fun _ _ => Ok tt) (fun _ _ => Ok tt)
    (fun _ h => if h <? 2 then Ok None else Ok (Some reading))
    (fun _ _ => Ok tt) never.

(** The client connects, and always reads an empty mapping. *)
Definition silent : World Z :=
  world one_device None
    (fun _ _ => Ok tt) (fun _ _ => Ok tt) (fun _ _ => Ok (Some []))
    (fun _ _ => Ok tt) never.

(** The device is out of reach: [connect] always raises. *)
Definition unreachable : World Z :=
  world one_device None
    (fun _ _ => Ok tt)
    (fun _ _ => Raise (Exception "BTLEDisconnectError" "Failed to connect to peripheral"))
    (fun _ _ => Ok (Some reading))
    (fun _ _ => Ok tt) never.

(** The client reads a Snapshot, and [disconnect] always raises. *)
Definition stubborn : World Z :=
  world one_device None
    (fun _ _ => Ok tt) (fun _ _ => Ok tt) (fun _ _ => Ok (Some reading))
    (fun _ _ => Raise (Exception "BTLEInternalError" "Helper not started"))
    never.

(** The first object reads nothing; creating the second one raises. *)
Definition flaky : World Z :=
  world one_device None
    (fun tr _ => if created tr =? 1
                 then Raise (Exception "BTLEManagementError" "adapter busy")
                 else Ok tt)
    (fun _ _ => Ok tt) (fun _ _ => Ok None) (fun _ _ => Ok tt) never.

(** Three descriptors of a configuration file. *)
Definition three_devices : list pyval :=
  [PDict [("name", PStr "Cellar"); ("serial", PInt 1)];
   PDict [("serial", PStr "2")];
   PDict [("name", PStr "Attic"); ("serial", PInt 3)]].

Definition three_config : pyval := PDict [("devices", PList three_devices)].

(** The first device answers at once; the second at its third attempt, and
    its file cannot be written; the third is out of reach. *)
Definition mixed : World Z :=
  world no_args (Some three_config)
    (fun _ _ => Ok tt)
    (fun _ h => if 4 <=? h
                then Raise (Exception "BTLEDisconnectError" "Failed to connect to peripheral")
                else Ok tt)
    (fun _ h => if (h =? 0) || (h =? 3) then Ok (Some reading) else Ok None)
    (fun _ _ => Ok tt)
    (fun tr => created tr =? 4).

(** A configuration file that lists no device. *)
Definition no_devices : World Z :=
  world no_args (Some (PDict [("devices", PList [])]))
    (fun _ _ => Ok tt) (fun _ _ => Ok tt) (fun _ _ => Ok (Some reading))
    (fun _ _ => Ok tt) never.

(** Neither serials nor a configuration file. *)
Definition nothing_given : World Z :=
  world no_args None
    (fun _ _ => Ok tt) (fun _ _ => Ok tt) (fun _ _ => Ok (Some reading))
    (fun _ _ => Ok tt) never.

(** The device is out of reach, and the user interrupts the first wait. *)
Definition interrupted : World Z :=
  mkWorld (Ok one_device)
    (fun _ _ => false)
    (fun _ _ => Raise (Exception "FileNotFoundError" "config.json"))
    (fun _ _ => Ok tt) (fun _ _ => Ok tt) (fun _ => noon)
    (fun _ _ => Ok tt)
    (fun _ _ => Raise (Exception "BTLEDisconnectError" "Failed to connect to peripheral"))
    (fun _ _ => Ok None) (fun _ _ => Ok tt)
    (fun _ _ => Raise KeyboardInterrupt)
    (fun _ _ _ => Ok tt).

(** [--device-serial 7,x]. *)
Definition bad_serial : World Z :=
  world (mkArgs "config.json" (Some "7,x")) None
    (fun _ _ => Ok tt) (fun _ _ => Ok tt) (fun _ _ => Ok (Some reading))
    (fun _ _ => Ok tt) never.

End Scenario.

Example split_two : Str.split "," "12, 34" = ["12"; " 34"].
Proof. reflexivity. Qed.

Example int_of_padded : Py.int_of_str " -1_000 " = Some (-1000)%Z.
Proof. reflexivity. Qed.

Example int_of_word : Py.int_of_str "12a" = None.
Proof. reflexivity. Qed.

Example of_Z_negative : Str.of_Z (-42) = "-42".
Proof. reflexivity. Qed.

Example zero_pad_two : Str.zero_pad 2 7 = "07".
Proof. reflexivity. Qed.

Example repr_nested :
  Py.repr (PDict [("a", PList [PInt 1; PNone]); ("b", PStr "x")])
  = "{'a': [1, None], 'b': 'x'}".
Proof. reflexivity. Qed.

(** ** The acquisition loop *)

Lemma count_app (p : event -> bool) (l1 l2 : list event) :
  count p (l1 ++ l2) = count p l1 + count p l2.
Proof. unfold count. rewrite filter_app, length_app. reflexivity. Qed.

(** Unfolds one attempt down to the calls it makes. *)
Ltac open_attempt :=
  unfold attempt_body, try_finally, try_except_Exception, try_except_pass,
    finally_block, try_block, except_block, WavePlusPlus, connect, read,
    disconnect, sleep, log, call, assign_waveplus, assign_sensors, bind, ret,
    record; simpl.

(** Splits on the innermost scrutinee the goal still matches on. *)
Ltac split_match :=
  match goal with
  | |- context [match ?x with _ => _ end] =>
      lazymatch x with
      | context [match _ with _ => _ end] => fail
      | _ => destruct x eqn:?
      end
  end.

Ltac split_all := repeat (split_match; simpl).

(** Closes [trace fr' = trace fr ++ ?evs] once both sides are explicit. *)
Ltac appended := rewrite <- ?app_assoc; simpl; reflexivity.

Section Properties.

Variable value : Type.
Variable json_value : value -> string.
Variable w : World value.

(** One attempt only adds to the trace, and only calls on the device client,
    sleeps and its own log lines; it constructs exactly one [WavePlusPlus]. *)
Lemma attempt_body_appends (serial : Z) (attempt : nat) (fr : frame value) :
  exists evs,
    trace (fst (attempt_body w serial attempt fr)) = (trace fr ++ evs)%list
    /\ forallb attempt_event evs = true
    /\ count is_new evs = 1.
Proof.
  open_attempt. split_all;
    (eexists; split; [ appended | split; reflexivity ]).
Qed.

Lemma for_attempts_appends (serial : Z) (attempts : list nat) :
  forall fr : frame value,
  exists evs,
    trace (fst (for_attempts w serial attempts fr)) = (trace fr ++ evs)%list
    /\ forallb attempt_event evs = true.
Proof.
  induction attempts as [| a rest IH]; intros fr; simpl.
  - exists []. rewrite app_nil_r. auto.
  - unfold bind.
    destruct (attempt_body_appends serial a fr) as (evs & Htr & Hev & _).
    destruct (attempt_body w serial a fr) as [fr1 [[|] | e]]; simpl in *;
      try (exists evs; auto; fail).
    destruct (IH fr1) as (evs' & Htr' & Hev').
    exists (evs ++ evs')%list. rewrite Htr', Htr, app_assoc, forallb_app, Hev, Hev'.
    auto.
Qed.

(** The loop over [l1 ++ l2] is the loop over [l1], then, unless that one ended
    by [break] or an exception, the loop over [l2]. *)
Lemma for_attempts_app (serial : Z) (l1 l2 : list nat) :
  forall fr : frame value,
    for_attempts w serial (l1 ++ l2) fr =
    match for_attempts w serial l1 fr with
    | (fr1, Ok Exhausted) => for_attempts w serial l2 fr1
    | stopped => stopped
    end.
Proof.
  induction l1 as [| a rest IH]; intros fr; simpl.
  - reflexivity.
  - unfold bind. destruct (attempt_body w serial a fr) as [fr1 [[|] | e]]; simpl; auto.
Qed.

(** A loop that runs out has made one attempt per index. *)
Lemma for_attempts_exhausted (serial : Z) (attempts : list nat) :
  forall fr fr1 : frame value,
    for_attempts w serial attempts fr = (fr1, Ok Exhausted) ->
    exists evs,
      trace fr1 = (trace fr ++ evs)%list
      /\ count is_new evs = List.length attempts.
Proof.
  induction attempts as [| a rest IH]; intros fr fr1; simpl.
  - unfold ret. intros H. injection H as <-. exists []. rewrite app_nil_r. auto.
  - unfold bind.
    destruct (attempt_body_appends serial a fr) as (evs & Htr & _ & Hnew).
    destruct (attempt_body w serial a fr) as [fr' [[|] | e]]; simpl in *;
      try discriminate.
    intros H. destruct (IH _ _ H) as (evs' & Htr' & Hnew').
    exists (evs ++ evs')%list. rewrite Htr', Htr, app_assoc, count_app. split; auto.
    rewrite Hnew, Hnew'. reflexivity.
Qed.

(** An attempt the client answers cleanly with a non-empty Snapshot ends in
    [break], with [sensors] bound to that Snapshot. *)
Lemma attempt_body_clean (serial : Z) (attempt : nat) (fr : frame value)
    (s : snapshot value) :
  clean_read w serial fr (Some s) -> s <> [] ->
  exists fr2,
    attempt_body w serial attempt fr = (fr2, Ok Break)
    /\ sensors fr2 = Some s
    /\ waveplus fr2 = Some (created (trace fr)).
Proof.
  intros (Hnew & Hconnect & Hread & Hdisconnect) Hs.
  open_attempt. rewrite Hnew, Hconnect, Hread, Hdisconnect. simpl.
  destruct s as [| kv s']; [ congruence | ]. simpl.
  eexists. split; [ reflexivity | ]. simpl. auto.
Qed.

(** C1: when the attempts before the [k]-th have run without ending the loop
    and the client answers the [k]-th cleanly with a non-empty Snapshot, the
    loop of [range(5)] ends by [break] right after that attempt, with [sensors]
    bound to that Snapshot, after exactly [k] attempts. *)
Theorem acquire_stops_at_first_snapshot (serial : Z) (k : nat)
    (fr fr1 : frame value) (s : snapshot value) :
  1 <= k <= 5 ->
  for_attempts w serial (seq 0 (k - 1)) fr = (fr1, Ok Exhausted) ->
  clean_read w serial fr1 (Some s) -> s <> [] ->
  exists fr2 evs,
    attempt_body w serial (k - 1) fr1 = (fr2, Ok Break)
    /\ acquire w serial fr = (fr2, Ok Broke)
    /\ sensors fr2 = Some s
    /\ trace fr2 = (trace fr ++ evs)%list
    /\ count is_new evs = k.
Proof.
  intros Hk Hbefore Hclean Hs.
  destruct (attempt_body_clean serial (k - 1) fr1 s Hclean Hs) as (fr2 & Hto & Hsens & _).
  destruct (for_attempts_exhausted _ _ _ _ Hbefore) as (evs1 & Htr1 & Hnew1).
  destruct (attempt_body_appends serial (k - 1) fr1) as (evs2 & Htr2 & _ & Hnew2).
  rewrite Hto in Htr2. simpl in Htr2.
  exists fr2, (evs1 ++ evs2)%list. repeat split; auto.
  - unfold acquire.
    replace 5 with ((k - 1) + S (5 - k)) by lia.
    rewrite seq_app, for_attempts_app, Hbefore. simpl.
    unfold bind. rewrite Hto. reflexivity.
  - rewrite Htr2, Htr1, app_assoc. reflexivity.
  - rewrite count_app, Hnew1, Hnew2, length_seq. lia.
Qed.

(** *** Attempts that fail *)

(** An attempt whose [try] body raises an [Exception] goes through the handler:
    it sleeps unless it is the fifth, and the loop goes on. *)
Lemma attempt_body_raising (serial : Z) (attempt : nat) (fr : frame value)
    (cls msg : string) :
  (forall tr seconds, time_sleep w tr seconds = Ok tt) ->
  snd (try_block w attempt serial fr) = Raise (Exception cls msg) ->
  exists fr2 evs,
    attempt_body w serial attempt fr = (fr2, Ok Next)
    /\ trace fr2 = (trace fr ++ evs)%list
    /\ count is_new evs = 1
    /\ count is_sleep evs = if attempt <? 4 then 1 else 0.
Proof.
  intros Hsleep. open_attempt. split_all; intros H; try discriminate;
    try (injection H as ->; simpl in *; try discriminate);
    try match goal with
        | E : time_sleep _ _ _ = Raise _ |- _ => rewrite Hsleep in E; discriminate
        end;
    (do 2 eexists; split; [ reflexivity | split; [ simpl; appended | split; reflexivity ] ]).
Qed.

(** An attempt the client answers cleanly with nothing usable logs a warning
    and goes on, without sleeping. *)
Lemma attempt_body_empty (serial : Z) (attempt : nat) (fr : frame value)
    (r : option (snapshot value)) :
  clean_read w serial fr r -> sensors_truthy r = false ->
  exists fr2 evs,
    attempt_body w serial attempt fr = (fr2, Ok Next)
    /\ trace fr2 = (trace fr ++ evs)%list
    /\ count is_new evs = 1
    /\ count is_sleep evs = 0.
Proof.
  intros (Hnew & Hconnect & Hread & Hdisconnect) Hr.
  open_attempt. rewrite Hnew, Hconnect, Hread, Hdisconnect. simpl. rewrite Hr. simpl.
  do 2 eexists. split; [ reflexivity | split; [ simpl; appended | split; reflexivity ] ].
Qed.

(** A client that raises in every attempt: the loop makes every attempt, sleeps
    after each of those before the fifth, and runs out. *)
Lemma for_attempts_always_raising (serial : Z) :
  (forall tr seconds, time_sleep w tr seconds = Ok tt) ->
  (forall attempt fr, exists cls msg,
      snd (try_block w attempt serial fr) = Raise (Exception cls msg)) ->
  forall attempts (fr : frame value),
  exists fr' evs,
    for_attempts w serial attempts fr = (fr', Ok Exhausted)
    /\ trace fr' = (trace fr ++ evs)%list
    /\ count is_new evs = List.length attempts
    /\ count is_sleep evs = List.length (filter (fun a => a <? 4) attempts).
Proof.
  intros Hsleep Hraise. induction attempts as [| a rest IH]; intros fr; simpl.
  - exists fr, []. rewrite app_nil_r. auto.
  - destruct (Hraise a fr) as (cls & msg & H).
    destruct (attempt_body_raising serial a fr cls msg Hsleep H)
      as (fr1 & evs1 & Hto & Htr1 & Hnew1 & Hsl1).
    destruct (IH fr1) as (fr' & evs & Hrest & Htr & Hnew & Hsl).
    exists fr', (evs1 ++ evs)%list. unfold bind. rewrite Hto, Hrest, Htr, Htr1.
    rewrite app_assoc, !count_app, Hnew1, Hnew, Hsl1, Hsl.
    repeat split. destruct (a <? 4); reflexivity.
Qed.

(** A client that answers every attempt cleanly with nothing usable: the loop
    makes every attempt and runs out, and never sleeps. *)
Lemma for_attempts_always_empty (serial : Z) :
  (forall fr, exists r, clean_read w serial fr r /\ sensors_truthy r = false) ->
  forall attempts (fr : frame value),
  exists fr' evs,
    for_attempts w serial attempts fr = (fr', Ok Exhausted)
    /\ trace fr' = (trace fr ++ evs)%list
    /\ count is_new evs = List.length attempts
    /\ count is_sleep evs = 0.
Proof.
  intros Hempty. induction attempts as [| a rest IH]; intros fr; simpl.
  - exists fr, []. rewrite app_nil_r. auto.
  - destruct (Hempty fr) as (r & Hclean & Hr).
    destruct (attempt_body_empty serial a fr r Hclean Hr)
      as (fr1 & evs1 & Hto & Htr1 & Hnew1 & Hsl1).
    destruct (IH fr1) as (fr' & evs & Hrest & Htr & Hnew & Hsl).
    exists fr', (evs1 ++ evs)%list. unfold bind. rewrite Hto, Hrest, Htr, Htr1.
    rewrite app_assoc, !count_app, Hnew1, Hnew, Hsl1, Hsl.
    repeat split.
Qed.

(** *** Cleanup *)

(** The [finally] block raises nothing, whatever [disconnect] does. *)
Lemma finally_block_returns (fr : frame value) :
  snd (finally_block w fr) = Ok tt.
Proof. reflexivity. Qed.

(** C3, as the code has it: in an attempt whose [WavePlusPlus] object is
    created, [disconnect] is called on that object and on no other: twice when
    [connect] and [read] both returned (line 122, then the [finally]), once
    (the [finally]) when one of them raised. *)
Theorem attempt_disconnects (serial : Z) (attempt : nat) (fr : frame value) :
  device_new w (trace fr) serial = Ok tt ->
  exists evs,
    trace (fst (attempt_body w serial attempt fr)) = (trace fr ++ evs)%list
    /\ count (is_disconnect (created (trace fr))) evs
       = (if read_returns w serial fr then 2 else 1)
    /\ only_handle (created (trace fr)) evs = true.
Proof.
  intros Hnew. unfold read_returns. open_attempt. rewrite Hnew. simpl.
  split_all;
    (eexists; split; [ appended | ]);
    unfold count, only_handle; simpl; rewrite ?Nat.eqb_refl; simpl; auto.
Qed.

(** ** The run over the devices *)

Lemma attempt_event_no_query (e : event) :
  attempt_event e = true -> is_query e = false /\ is_write e = false.
Proof.
  destruct e as [ | | | | | | [ | | ] msg | | | | | | ]; simpl; intros H;
    try discriminate; auto.
  apply String.eqb_eq in H. subst msg. auto.
Qed.

Lemma attempt_events_count (p : event -> bool) (evs : list event) :
  (forall e, attempt_event e = true -> p e = false) ->
  forallb attempt_event evs = true -> count p evs = 0.
Proof.
  intros Hp. unfold count. induction evs as [| e evs IH]; simpl; auto.
  intros H. apply andb_prop in H as [He Hevs].
  rewrite (Hp e He). auto.
Qed.


(** In a world without interrupts an attempt raises nothing. *)
Lemma attempt_body_orderly (serial : Z) (attempt : nat) (fr : frame value) :
  orderly w -> exists f, snd (attempt_body w serial attempt fr) = Ok f.
Proof.
  intros [Hnew Hconnect Hread Hdisconnect _ Hsleep].
  open_attempt. rewrite ?Hsleep.
  split_all; try (eexists; reflexivity); exfalso;
    repeat match goal with
    | E : device_new w ?tr ?x = Raise ?e |- _ =>
        generalize (Hnew tr x); rewrite E; clear E; simpl; intro
    | E : device_connect w ?tr ?x = Raise ?e |- _ =>
        generalize (Hconnect tr x); rewrite E; clear E; simpl; intro
    | E : device_read w ?tr ?x = Raise ?e |- _ =>
        generalize (Hread tr x); rewrite E; clear E; simpl; intro
    | E : device_disconnect w ?tr ?x = Raise ?e |- _ =>
        generalize (Hdisconnect tr x); rewrite E; clear E; simpl; intro
    | E : time_sleep w ?tr ?x = Raise ?e |- _ =>
        rewrite Hsleep in E; discriminate
    end; congruence.
Qed.

Lemma for_attempts_orderly (serial : Z) (attempts : list nat) :
  orderly w ->
  forall fr : frame value,
  exists fr1 e evs,
    for_attempts w serial attempts fr = (fr1, Ok e)
    /\ trace fr1 = (trace fr ++ evs)%list
    /\ forallb attempt_event evs = true.
Proof.
  intros Hw. induction attempts as [| a rest IH]; intros fr; simpl.
  - exists fr, Exhausted, []. rewrite app_nil_r. auto.
  - unfold bind.
    destruct (attempt_body_orderly serial a fr Hw) as (f & Hf).
    destruct (attempt_body_appends serial a fr) as (evs & Htr & Hev & _).
    destruct (attempt_body w serial a fr) as [fr1 r]. simpl in *. subst r.
    destruct f.
    + destruct (IH fr1) as (fr2 & e & evs' & Hto & Htr' & Hev').
      exists fr2, e, (evs ++ evs')%list.
      rewrite Hto, Htr', Htr, app_assoc, forallb_app, Hev, Hev'. auto.
    + exists fr1, Broke, evs. auto.
Qed.




(** In a world without interrupts [save] raises nothing and ends on a report. *)
Lemma save_orderly (p : string) (serial : Z) (fr : frame value) :
  orderly w ->
  exists last,
    snd (save json_value w (PStr p) serial fr) = Ok tt
    /\ trace (fst (save json_value w (PStr p) serial fr))
       = (trace fr
          ++ [EvNow;
              EvWrite (Py.path_join p (data_file_name serial (datetime_now w (trace fr))))
                      (json_dump json_value (sensors fr));
              last])%list
    /\ report serial last.
Proof.
  intros Hw.
  unfold save, now, os_path_join, try_except_Exception, load_sensors, write, log,
    call, bind, ret, record. simpl.
  match goal with
  | |- context [file_write w ?tr ?path ?content] =>
      generalize (write_ordinary w Hw tr path content);
      destruct (file_write w tr path content) as [[] | e]; simpl; intros He
  end.
  - eexists. split; [ reflexivity | split; [ appended | constructor ] ].
  - rewrite He. simpl.
    eexists. split; [ reflexivity | split; [ appended | constructor ] ].
Qed.

(** The work on one descriptor, by how its acquisition loop ends. *)
Lemma device_body_unfold (data_path device device_name : pyval) (serial : Z)
    (fr : frame value) :
  serial_of device = Ok serial ->
  name_of device serial = Ok device_name ->
  device_body json_value w data_path device fr =
  match acquire w serial (polling fr device_name serial) with
  | (fr1, Ok Exhausted) =>
      log WARNING ("Failed to query device " ++ Str.of_Z serial
                   ++ " after five tries. Giving up!") fr1
  | (fr1, Ok Broke) => save json_value w data_path serial fr1
  | (fr1, Raise e) => (fr1, Raise e)
  end.
Proof.
  unfold serial_of, name_of, device_body, polling, bind, lift, log, assign_sensors,
    record.
  destruct (Py.getitem device "serial") as [item | e]; [ | discriminate ].
  intros -> ->. simpl.
  destruct (acquire w serial _) as [fr1 [[|] | e]]; reflexivity.
Qed.

(** In a world without interrupts the work on a descriptor with a serial
    raises nothing, whatever the device and the file system do. *)
Lemma device_body_contained (p : string) (device : pyval) (fr : frame value) :
  orderly w -> has_serial device ->
  exists fr' evs,
    device_body json_value w (PStr p) device fr = (fr', Ok tt)
    /\ trace fr' = (trace fr ++ evs)%list
    /\ device_run device evs.
Proof.
  intros Hw [serial Hserial].
  assert (exists device_name, name_of device serial = Ok device_name) as [device_name Hname].
  { unfold serial_of, name_of in *. destruct device; simpl in *; try discriminate.
    destruct (Py.lookup "name" d); eauto. }
  rewrite (device_body_unfold _ _ _ _ _ Hserial Hname).
  destruct (for_attempts_orderly serial (seq 0 5) Hw (polling fr device_name serial))
    as (fr1 & e & evs & Hto & Htr & Hev).
  fold (acquire w serial) in Hto. rewrite Hto.
  assert (Hq : count is_query evs = 0).
  { apply attempt_events_count; auto. intros x Hx. apply attempt_event_no_query, Hx. }
  destruct e.
  - destruct (save_orderly p serial fr1 Hw) as (last & Hok & Htr' & Hlast).
    destruct (save json_value w (PStr p) serial fr1) as [fr2 r]. simpl in *. subst r.
    exists fr2, (EvLog INFO (query_message device_name serial)
                 :: (evs ++ [EvNow;
                             EvWrite (Py.path_join p (data_file_name serial
                                                        (datetime_now w (trace fr1))))
                                     (json_dump json_value (sensors fr1))])
                 ++ [last])%list.
    split; [ reflexivity | ]. split.
    + rewrite Htr', Htr. simpl. rewrite <- !app_assoc. reflexivity.
    + econstructor; eauto.
      rewrite count_app, Hq. reflexivity.
  - exists (record fr1 (EvLog WARNING ("Failed to query device " ++ Str.of_Z serial
                                       ++ " after five tries. Giving up!"))),
           (EvLog INFO (query_message device_name serial) :: evs
            ++ [EvLog WARNING ("Failed to query device " ++ Str.of_Z serial
                               ++ " after five tries. Giving up!")])%list.
    split; [ reflexivity | ]. split.
    + simpl. rewrite Htr. simpl. rewrite <- !app_assoc. reflexivity.
    + econstructor; eauto. constructor.
Qed.

(** C6: in a world without interrupts, over descriptors that each have a
    serial, the loop over the devices raises nothing: the trace it adds is one
    run per descriptor, in the order of the list, each opening with that
    descriptor's [Querying Device] line and closing with its report (gave up,
    saved, or failed to save). *)
Theorem run_isolates_device_failures (p : string) (devices : list pyval) :
  orderly w -> Forall has_serial devices ->
  forall fr : frame value,
  exists fr' runs,
    for_devices json_value w (PStr p) devices fr = (fr', Ok tt)
    /\ trace fr' = (trace fr ++ List.concat runs)%list
    /\ Forall2 device_run devices runs.
Proof.
  intros Hw Hall. induction Hall as [| device rest Hdevice Hrest IH]; intros fr; simpl.
  - exists fr, []. simpl. rewrite app_nil_r. auto.
  - destruct (device_body_contained p device fr Hw Hdevice) as (fr1 & evs & Hto & Htr & Hrun).
    destruct (IH fr1) as (fr' & runs & Hto' & Htr' & Hruns).
    exists fr', (evs :: runs). unfold bind. rewrite Hto, Hto'.
    split; [ reflexivity | ]. split; [ | constructor; assumption ].
    rewrite Htr', Htr. simpl. rewrite app_assoc. reflexivity.
Qed.

(** *** The output document *)


Lemma matches_app (p1 p2 s1 s2 : string) :
  matches p1 s1 = true -> matches p2 s2 = true ->
  matches (p1 ++ p2) (s1 ++ s2) = true.
Proof.
  revert s1. induction p1 as [| c p1 IH]; intros [| a s1]; simpl;
    try discriminate; auto.
  intros H H2. apply andb_prop in H as [Hc H1]. rewrite Hc. simpl. auto.
Qed.

Lemma zero_pad_2_shape (n : nat) : n < 100 -> matches "dd" (Str.zero_pad 2 n) = true.
Proof.
  intros Hn.
  assert (H : forallb (fun k => matches "dd" (Str.zero_pad 2 k)) (seq 0 100) = true)
    by (vm_compute; reflexivity).
  rewrite forallb_forall in H. apply H, in_seq. lia.
Qed.

Lemma zero_pad_4_shape (n : nat) :
  n < 100 * 100 -> matches "dddd" (Str.zero_pad 4 n) = true.
Proof.
  intros Hn.
  assert (H : forallb (fun k => matches "dddd" (Str.zero_pad 4 k)) (seq 0 (100 * 100)) = true)
    by (vm_compute; reflexivity).
  rewrite forallb_forall in H. apply H, in_seq. lia.
Qed.

(** The time stamp of a [datetime] has the shape of [%Y-%m-%d-%H-%M-%S]. *)
Lemma strftime_stamp_shape (t : datetime) :
  valid_datetime t = true -> matches "dddd-dd-dd-dd-dd-dd" (strftime_stamp t) = true.
Proof.
  unfold valid_datetime. intros H.
  repeat (apply andb_prop in H as [H ?]).
  repeat match goal with
         | E : (_ <=? _) = true |- _ => apply Nat.leb_le in E
         | E : (_ <? _) = true |- _ => apply Nat.ltb_lt in E
         end.
  change "dddd-dd-dd-dd-dd-dd"
    with (("dddd" ++ "-" ++ "dd" ++ "-" ++ "dd") ++ "-" ++ "dd" ++ "-" ++ "dd" ++ "-" ++ "dd").
  unfold strftime_stamp, strftime_date.
  repeat first [ apply zero_pad_4_shape; lia
               | apply zero_pad_2_shape; lia
               | reflexivity
               | apply matches_app ].
Qed.


(** *** The device name in the log *)

(** Line 112 uses the default only when the descriptor has no [name] key. *)
Lemma name_of_absent (d : list (string * pyval)) (serial : Z) :
  Py.lookup "name" d = None ->
  name_of (PDict d) serial = Ok (PStr ("Device-" ++ Str.of_Z serial)).
Proof. unfold name_of. simpl. intros ->. reflexivity. Qed.

Lemma name_of_present (d : list (string * pyval)) (serial : Z) (v : pyval) :
  Py.lookup "name" d = Some v -> name_of (PDict d) serial = Ok v.
Proof. unfold name_of. simpl. intros ->. reflexivity. Qed.

(** A descriptor from the command line has the key, bound to [None]. *)
Lemma name_of_descriptor (z serial : Z) : name_of (descriptor z) serial = Ok PNone.
Proof. reflexivity. Qed.

(** *** The start of the run and the exit status *)

(** C9, as the code has it: with no serials on the command line and no usable
    configuration file, the run ends in the guard's handler: the error is
    logged once, as the last event, and the exit status is 1. *)
Theorem no_config_is_fatal (args : namespace) :
  parse_args w = Ok args ->
  no_cli_serials args ->
  config_unusable w (config args) ->
  exists evs,
    script json_value w = ((evs ++ [fatal_report])%list, 1%Z)
    /\ count is_fatal_report evs = 0.
Proof.
  intros Hargs Hcli Hcfg.
  unfold script, guard, main, resolve, load_config, try_except_Exception, call, log,
    sys_exit, lift, bind, ret, record, fatal_report. simpl.
  rewrite Hargs.
  assert (Hbranch : match device_serial args with
                    | Some (String _ _) => False
                    | _ => True
                    end)
    by (destruct Hcli as [-> | ->]; exact I).
  destruct (device_serial args) as [[| a rest] |]; try contradiction;
    destruct Hcfg as [Habsent | [(Hthere & cls & msg & Hload) | (Hthere & v & Hload & Hfalse)]];
    simpl;
    [ rewrite Habsent; simpl; exists [EvParseArgs; EvExists (config args)]
    | rewrite Hthere; simpl; rewrite Hload; simpl;
      exists [EvParseArgs; EvExists (config args); EvLoad (config args);
              EvLog ERROR ("Failed to load config file " ++ config args ++ ": " ++ msg)]
    | rewrite Hthere; simpl; rewrite Hload; simpl; rewrite Hfalse; simpl;
      exists [EvParseArgs; EvExists (config args); EvLoad (config args)]
    | rewrite Habsent; simpl; exists [EvParseArgs; EvExists (config args)]
    | rewrite Hthere; simpl; rewrite Hload; simpl;
      exists [EvParseArgs; EvExists (config args); EvLoad (config args);
              EvLog ERROR ("Failed to load config file " ++ config args ++ ": " ++ msg)]
    | rewrite Hthere; simpl; rewrite Hload; simpl; rewrite Hfalse; simpl;
      exists [EvParseArgs; EvExists (config args); EvLoad (config args)] ];
    split; reflexivity.
Qed.

(** C10: the exit status is 0 when [main] returns and when it raises
    [KeyboardInterrupt], and 1 when it raises an [Exception]; a [SystemExit]
    passes with its own code, and any other exception ends the interpreter
    with 1. *)
Theorem exit_codes :
  snd (script json_value w) =
  match snd (main json_value w start) with
  | Ok _ => 0%Z
  | Raise KeyboardInterrupt => 0%Z
  | Raise (Exception _ _) => 1%Z
  | Raise (SystemExit code) => code
  | Raise (BaseException _ _) => 1%Z
  end.
Proof.
  unfold script, guard.
  destruct (main json_value w start) as [fr [[] | [cls msg | | code | cls msg]]];
    reflexivity.
Qed.

End Properties.

(** ** The scenarios, run *)

Section Scenarios.

Import Scenario.

(** C1 at a client that answers the third attempt: the loop stops there. *)
Lemma third_attempt_stops :
  exists fr2 evs,
    attempt_body third_time 7 2 (fst (for_attempts third_time 7 [0; 1] start))
    = (fr2, Ok Break)
    /\ acquire third_time 7 start = (fr2, Ok Broke)
    /\ sensors fr2 = Some reading
    /\ trace fr2 = (trace (@start Z) ++ evs)%list
    /\ count is_new evs = 3.
Proof.
  apply (acquire_stops_at_first_snapshot Z third_time 7 3 start
           (fst (for_attempts third_time 7 [0; 1] start)) reading).
  - lia.
  - reflexivity.
  - repeat split.
  - discriminate.
Defined.

(** C2 at a client that always reads an empty mapping: five attempts, the loop
    runs out, and [sleep] is never called, though every warning announces a
    wait of five seconds. *)
Theorem empty_results_never_sleep :
  snd (acquire silent 7 start) = Ok Exhausted
  /\ count is_new (trace (fst (acquire silent 7 start))) = 5
  /\ count is_sleep (trace (fst (acquire silent 7 start))) = 0
  /\ In (EvLog WARNING "Failed to query device on attempt 1. Trying again in 5 seconds.")
        (trace (fst (acquire silent 7 start))).
Proof. vm_compute. intuition. Qed.

(** The other failure class, a client that always raises: five attempts and
    four sleeps. *)
Example unreachable_sleeps_four_times :
  exists fr' evs,
    acquire unreachable 7 start = (fr', Ok Exhausted)
    /\ trace fr' = (trace (@start Z) ++ evs)%list
    /\ count is_new evs = 5
    /\ count is_sleep evs = 4.
Proof.
  apply (for_attempts_always_raising Z unreachable 7).
  - reflexivity.
  - intros attempt fr. do 2 eexists. reflexivity.
Qed.

(** Every client that answers cleanly with nothing usable is treated as
    [silent] is. *)
Example silent_is_always_empty :
  exists fr' evs,
    acquire silent 7 start = (fr', Ok Exhausted)
    /\ trace fr' = (trace (@start Z) ++ evs)%list
    /\ count is_new evs = 5
    /\ count is_sleep evs = 0.
Proof.
  apply (for_attempts_always_empty Z silent 7).
  intros fr. exists (Some []). repeat split.
Qed.

(** C3 as stated fails: an attempt that meets no exception calls [disconnect]
    on its object twice. *)
Lemma healthy_attempt_disconnects_twice :
  count (is_disconnect 0) (trace (fst (attempt_body healthy 7 0 start))) = 2
  /\ count (is_disconnect 0) (trace (fst (attempt_body healthy 7 0 start))) <> 1.
Proof. split; [ reflexivity | discriminate ]. Qed.

(** C3's theorem at two attempts: one that meets no exception, one whose
    [connect] raises. *)
Lemma attempt_disconnects_either_way :
  (exists evs,
     trace (fst (attempt_body healthy 7 0 start)) = (trace (@start Z) ++ evs)%list
     /\ count (is_disconnect 0) evs = 2
     /\ only_handle 0 evs = true)
  /\ (exists evs,
        trace (fst (attempt_body unreachable 7 0 start)) = (trace (@start Z) ++ evs)%list
        /\ count (is_disconnect 0) evs = 1
        /\ only_handle 0 evs = true).
Proof.
  split.
  - apply (attempt_disconnects Z healthy 7 0 start). reflexivity.
  - apply (attempt_disconnects Z unreachable 7 0 start). reflexivity.
Defined.

(** C4 at a client whose [disconnect] raises: every attempt has read the
    Snapshot, none counts as a success, and the run writes nothing. *)
Theorem failed_disconnect_loses_snapshot :
  snd (acquire stubborn 7 start) = Ok Exhausted
  /\ sensors (fst (acquire stubborn 7 start)) = Some reading
  /\ count is_new (trace (fst (acquire stubborn 7 start))) = 5
  /\ count is_write (fst (script Str.of_Z stubborn)) = 0
  /\ In (EvLog WARNING "Failed to query device 7 after five tries. Giving up!")
        (fst (script Str.of_Z stubborn)).
Proof. vm_compute. intuition. Qed.

(** C5 at a client whose second construction raises: the cleanup of the second
    attempt disconnects the object of the first. *)
Theorem cleanup_disconnects_stale_object :
  waveplus (fst (attempt_body flaky 7 0 start)) = Some 0
  /\ since (trace (fst (attempt_body flaky 7 0 start)))
           (trace (fst (attempt_body flaky 7 1 (fst (attempt_body flaky 7 0 start)))))
     = [EvNew 1 7; EvLog ERROR "Error querying device 7: adapter busy"; EvSleep 5;
        EvDisconnect 0].
Proof. split; reflexivity. Qed.

(** C6 at three devices: one answers, one cannot be saved, one is out of
    reach; the loop over them returns. *)
Lemma mixed_run_completes :
  exists fr' runs,
    for_devices Str.of_Z mixed (PStr "data") three_devices start = (fr', Ok tt)
    /\ trace fr' = (trace (@start Z) ++ List.concat runs)%list
    /\ Forall2 device_run three_devices runs.
Proof.
  apply (run_isolates_device_failures Z Str.of_Z mixed "data" three_devices).
  - constructor; intros; simpl;
      repeat match goal with
             | |- context [if ?c then _ else _] => destruct c
             end; simpl; auto.
  - repeat constructor; eexists; reflexivity.
Defined.

(** The whole run over the three: two writes, one of them refused, one device
    given up, exit status 0. *)
Example mixed_script :
  snd (script Str.of_Z mixed) = 0%Z
  /\ count is_write (fst (script Str.of_Z mixed)) = 2
  /\ count is_error (fst (script Str.of_Z mixed)) = 6
  /\ map (fun e => match e with EvLog _ msg => msg | _ => EmptyString end)
         (filter is_query (fst (script Str.of_Z mixed)))
     = ["Querying Device Cellar (Serial: 1)"; "Querying Device Device-2 (Serial: 2)";
        "Querying Device Attic (Serial: 3)"].
Proof. vm_compute. auto. Qed.

(** C7 at [--device-serial 2930012345]: the descriptor has the key [name]
    bound to [None], and the log names the device [None]. *)
Theorem cli_device_is_named_None :
  parse_device_serials "2930012345" = Ok [descriptor 2930012345]
  /\ name_of (descriptor 2930012345) 2930012345 = Ok PNone
  /\ filter is_query (fst (script Str.of_Z healthy))
     = [EvLog INFO "Querying Device None (Serial: 2930012345)"]
  /\ ~ In (EvLog INFO "Querying Device Device-2930012345 (Serial: 2930012345)")
          (fst (script Str.of_Z healthy)).
Proof.
  repeat split; try (vm_compute; reflexivity).
  vm_compute. intuition discriminate.
Qed.


(** The file of that poll, and the order of its members. *)
Example healthy_document :
  filter is_write (fst (script Str.of_Z healthy))
  = [EvWrite "data/WavePlusPlus-2930012345-2024-03-09-12-00-05.json"
       ("{" ++ Str.nl
        ++ "    " ++ Str.dq ++ "radon" ++ Str.dq ++ ": 12," ++ Str.nl
        ++ "    " ++ Str.dq ++ "humidity" ++ Str.dq ++ ": 40" ++ Str.nl
        ++ "}")].
Proof. vm_compute. reflexivity. Qed.

(** C9 as stated fails: a configuration that lists no device is no error; the
    run logs nothing at [ERROR] and exits with 0. *)
Lemma empty_device_list_exits_zero :
  script Str.of_Z no_devices
  = ([EvParseArgs; EvExists "config.json"; EvLoad "config.json";
      EvLog INFO "Script Initialized"; EvMakedirs "data";
      EvLog INFO "Output path: data"], 0%Z).
Proof. vm_compute. reflexivity. Qed.

(** C9's theorem with neither serials nor a configuration file. *)
Lemma nothing_given_is_fatal :
  exists evs,
    script Str.of_Z nothing_given = ((evs ++ [fatal_report])%list, 1%Z)
    /\ count is_fatal_report evs = 0.
Proof.
  apply (no_config_is_fatal Z Str.of_Z nothing_given no_args).
  - reflexivity.
  - left. reflexivity.
  - left. reflexivity.
Defined.

(** An interrupt during the wait leaves [main] through the [finally] and ends
    the script with status 0. *)
Example interrupt_exits_zero :
  script Str.of_Z interrupted
  = ([EvParseArgs; EvLog INFO "Script Initialized"; EvMakedirs "data";
      EvLog INFO "Output path: data"; EvLog INFO "Querying Device None (Serial: 7)";
      EvNew 0 7; EvConnect 0;
      EvLog ERROR "Error querying device 7: Failed to connect to peripheral";
      EvSleep 5; EvDisconnect 0; EvLog INFO "Script interrupted by user"], 0%Z).
Proof. vm_compute. reflexivity. Qed.

(** A serial that is no integer ends the script with status 1. *)
Example bad_serial_exits_one :
  script Str.of_Z bad_serial
  = ([EvParseArgs;
      EvLog ERROR
        "Script failed with error: Invalid serial number passed. Must be integers separated by commas. Received: 7,x"],
     1%Z).
Proof. vm_compute. reflexivity. Qed.

End Scenarios.

(** * Further properties of the script *)

(** ** Serial numbers as text *)

(** The value of a run of decimal digits read after [acc]. *)
Fixpoint uint_value (acc : Z) (d : Decimal.uint) : Z :=
  match d with
  | Decimal.Nil => acc
  | Decimal.D0 l => uint_value (10 * acc + 0) l
  | Decimal.D1 l => uint_value (10 * acc + 1) l
  | Decimal.D2 l => uint_value (10 * acc + 2) l
  | Decimal.D3 l => uint_value (10 * acc + 3) l
  | Decimal.D4 l => uint_value (10 * acc + 4) l
  | Decimal.D5 l => uint_value (10 * acc + 5) l
  | Decimal.D6 l => uint_value (10 * acc + 6) l
  | Decimal.D7 l => uint_value (10 * acc + 7) l
  | Decimal.D8 l => uint_value (10 * acc + 8) l
  | Decimal.D9 l => uint_value (10 * acc + 9) l
  end%Z.

(** No character of [s] satisfies [p]. *)
Fixpoint free_of (p : ascii -> bool) (s : string) : bool :=
  match s with
  | EmptyString => true
  | String a rest => negb (p a) && free_of p rest
  end.


Lemma digits_of_uint (d : Decimal.uint) :
  forall st acc,
    d <> Decimal.Nil \/ st = Py.AfterDigit ->
    Py.digits st acc (NilEmpty.string_of_uint d) = Some (uint_value acc d).
Proof.
  induction d; intros st acc H; simpl;
    try (apply IHd; right; reflexivity).
  destruct H as [H | ->]; [ congruence | reflexivity ].
Qed.

Lemma of_uint_acc_value (d : Decimal.uint) :
  forall p, Z.pos (Pos.of_uint_acc d p) = uint_value (Z.pos p) d.
Proof.
  induction d; intros p; cbn [Pos.of_uint_acc uint_value];
    try rewrite IHd; try reflexivity; f_equal; lia.
Qed.

Lemma of_uint_value (d : Decimal.uint) : Z.of_uint d = uint_value 0 d.
Proof.
  unfold Z.of_uint.
  induction d; simpl; try exact IHd; try reflexivity;
    rewrite of_uint_acc_value; reflexivity.
Qed.

Lemma uint_text_clean (p : ascii -> bool) (d : Decimal.uint) :
  (forall a, Str.is_digit a = true -> p a = false) ->
  free_of p (NilEmpty.string_of_uint d) = true.
Proof.
  intros Hp. induction d; simpl; auto; rewrite Hp; auto.
Qed.

Lemma free_of_rev_acc (p : ascii -> bool) (s : string) :
  forall acc, free_of p (Str.rev_acc s acc) = free_of p s && free_of p acc.
Proof.
  induction s as [| a s IH]; intros acc; simpl; auto.
  rewrite IH. simpl. destruct (p a), (free_of p s); reflexivity.
Qed.

Lemma rev_acc_rev_acc (s : string) :
  forall acc acc', Str.rev_acc (Str.rev_acc s acc) acc' = Str.rev_acc acc (s ++ acc').
Proof.
  induction s as [| a s IH]; intros acc acc'; simpl; auto.
Qed.

Lemma append_empty (s : string) : s ++ EmptyString = s.
Proof. induction s as [| a s IH]; simpl; congruence. Qed.

Lemma lstrip_clean (s : string) : free_of Str.is_space s = true -> Str.lstrip s = s.
Proof.
  destruct s as [| a s]; simpl; auto.
  destruct (Str.is_space a); simpl; [ discriminate | reflexivity ].
Qed.

(** A text without white space is its own [strip]. *)
Lemma strip_clean (s : string) : free_of Str.is_space s = true -> Str.strip s = s.
Proof.
  intros H. unfold Str.strip, Str.rev.
  rewrite (lstrip_clean s H).
  rewrite lstrip_clean by (rewrite free_of_rev_acc, H; reflexivity).
  rewrite rev_acc_rev_acc. simpl. apply append_empty.
Qed.

Lemma nilzero_text_clean (p : ascii -> bool) (d : Decimal.uint) :
  (forall a, Str.is_digit a = true -> p a = false) ->
  free_of p (NilZero.string_of_uint d) = true.
Proof.
  intros Hp. destruct d; try apply (uint_text_clean p _ Hp).
  simpl. rewrite Hp; auto.
Qed.

Lemma of_Z_free (p : ascii -> bool) (z : Z) :
  (forall a, Str.is_digit a = true -> p a = false) -> p "-"%char = false ->
  free_of p (Str.of_Z z) = true.
Proof.
  intros Hd Hm. unfold Str.of_Z, NilZero.string_of_int.
  destruct (Z.to_int z) as [d | d].
  - apply nilzero_text_clean, Hd.
  - simpl. rewrite Hm. simpl. apply nilzero_text_clean, Hd.
Qed.

Lemma digit_is_no_space (a : ascii) : Str.is_digit a = true -> Str.is_space a = false.
Proof.
  unfold Str.is_digit, Str.is_space. intros H.
  apply andb_prop in H as [H1 H2].
  apply Nat.leb_le in H1. apply Nat.leb_le in H2.
  repeat match goal with
         | |- context [?x =? ?y] => destruct (Nat.eqb_spec x y)
         | |- context [?x <=? ?y] => destruct (Nat.leb_spec x y)
         end; simpl; auto; lia.
Qed.


(** [int(str(z))] is [z]. *)
Lemma int_of_str_of_Z (z : Z) : Py.int_of_str (Str.of_Z z) = Some z.
Proof.
  unfold Py.int_of_str.
  rewrite strip_clean by (apply of_Z_free; [ apply digit_is_no_space | reflexivity ]).
  rewrite <- (DecimalZ.of_to z) at 2.
  unfold Str.of_Z, NilZero.string_of_int, NilZero.string_of_uint, Z.of_int.
  destruct (Z.to_int z) as [d | d] eqn:E.
  - rewrite of_uint_value.
    destruct d; try reflexivity; simpl;
      (rewrite digits_of_uint by (right; reflexivity); reflexivity).
  - rewrite of_uint_value.
    destruct d; try reflexivity; simpl;
      (rewrite digits_of_uint by (right; reflexivity); reflexivity).
Qed.

(** ** [parse_device_serials] *)

Lemma all_some_map_Some {A : Type} (l : list (option A)) (zs : list A) :
  all_some l = Some zs <-> l = map Some zs.
Proof.
  revert zs. induction l as [| [a |] l IH]; intros zs; simpl.
  - split; [ intros [= <-]; reflexivity | destruct zs; [ reflexivity | discriminate ] ].
  - destruct (all_some l) as [zs' |] eqn:E; simpl.
    + split.
      * intros [= <-]. simpl. f_equal. apply IH. reflexivity.
      * destruct zs as [| z zs]; [ discriminate | ]. simpl. intros [= <- H].
        apply IH in H. congruence.
    + split; [ discriminate | ].
      destruct zs as [| z zs]; [ discriminate | ]. simpl. intros [= <- H].
      apply IH in H. discriminate.
  - split; [ discriminate | destruct zs; discriminate ].
Qed.

Lemma all_some_None {A : Type} (l : list (option A)) :
  all_some l = None <-> In None l.
Proof.
  induction l as [| [a |] l IH]; simpl.
  - split; [ discriminate | tauto ].
  - destruct (all_some l); simpl.
    + split; [ discriminate | ]. intros [H | H]; [ discriminate | ].
      apply IH in H. discriminate.
    + split; auto. intros _. right. apply IH. reflexivity.
  - split; auto.
Qed.




Lemma serial_of_descriptor (z : Z) : serial_of (descriptor z) = Ok z.
Proof. reflexivity. Qed.

(** X1: what [parse_device_serials] returns is one descriptor per piece between
    commas, in the order of the pieces, each with the integer its piece reads as
    under [serial] and [None] under [name]; every one of them has a serial. *)
Theorem parse_device_serials_descriptors (serial_string : string) (devices : list pyval) :
  parse_device_serials serial_string = Ok devices ->
  exists serials,
    devices = map descriptor serials
    /\ Forall2 (fun piece z => Py.int_of_str (Str.strip piece) = Some z)
               (Str.split "," serial_string) serials
    /\ Forall has_serial devices
    /\ Forall (fun device => Py.getitem device "name" = Ok PNone) devices.
Proof.
  unfold parse_device_serials.
  destruct (all_some _) as [zs |] eqn:E; [ | discriminate ].
  intros [= <-]. exists zs. apply all_some_map_Some in E.
  split; [ reflexivity | ]. split; [ | split ].
  - revert E. generalize (Str.split "," serial_string).
    induction zs as [| z zs IH]; intros [| x l]; simpl; try discriminate.
    + constructor.
    + intros [= H1 H2]. constructor; auto.
  - apply Forall_forall. intros d Hd. apply in_map_iff in Hd as (z & <- & _).
    exists z. reflexivity.
  - apply Forall_forall. intros d Hd. apply in_map_iff in Hd as (z & <- & _).
    reflexivity.
Qed.


(** An empty argument, and an argument with nothing after a comma, are
    rejected. *)
Example empty_piece_rejected :
  (exists msg, parse_device_serials EmptyString = Raise (Exception "ValueError" msg))
  /\ (exists msg, parse_device_serials "7," = Raise (Exception "ValueError" msg))
  /\ (exists msg, parse_device_serials "7, ,8" = Raise (Exception "ValueError" msg)).
Proof. repeat split; eexists; reflexivity. Qed.


(** ** Names of the output files *)

Lemma matches_length (pattern s : string) :
  matches pattern s = true -> String.length s = String.length pattern.
Proof.
  revert s. induction pattern as [| c pattern IH]; intros [| a s]; simpl;
    try discriminate; auto.
  intros H. apply andb_prop in H as [_ H]. f_equal. auto.
Qed.

Lemma length_append (u v : string) :
  String.length (u ++ v) = String.length u + String.length v.
Proof. induction u as [| a u IH]; simpl; auto. Qed.

Lemma app_assoc_string (u v x : string) : (u ++ v) ++ x = u ++ v ++ x.
Proof. induction u as [| a u IH]; simpl; congruence. Qed.

(** Texts that agree, cut where their heads have the same length, agree on
    both sides of the cut. *)
Lemma app_inj_head (u1 u2 v1 v2 : string) :
  String.length u1 = String.length u2 ->
  u1 ++ v1 = u2 ++ v2 -> u1 = u2 /\ v1 = v2.
Proof.
  revert u2. induction u1 as [| a u1 IH]; intros [| b u2]; simpl;
    try discriminate; auto.
  intros [= Hlen] [= -> H]. destruct (IH _ Hlen H) as [-> ->]. auto.
Qed.

Lemma app_inj_tail (u1 u2 v1 v2 : string) :
  String.length v1 = String.length v2 ->
  u1 ++ v1 = u2 ++ v2 -> u1 = u2 /\ v1 = v2.
Proof.
  intros Hlen H. apply app_inj_head; auto.
  apply (f_equal String.length) in H. rewrite !length_append in H. lia.
Qed.

Lemma zero_pad_2_reads (n : nat) :
  n < 100 -> Py.int_of_str (Str.zero_pad 2 n) = Some (Z.of_nat n).
Proof.
  intros Hn.
  assert (H : forallb (fun k => match Py.int_of_str (Str.zero_pad 2 k) with
                                | Some z => (z =? Z.of_nat k)%Z
                                | None => false
                                end) (seq 0 100) = true)
    by (vm_compute; reflexivity).
  rewrite forallb_forall in H. specialize (H n). rewrite in_seq in H.
  destruct (Py.int_of_str (Str.zero_pad 2 n)); [ | discriminate H; lia ].
  f_equal. apply Z.eqb_eq, H. lia.
Qed.

Lemma zero_pad_4_reads (n : nat) :
  n < 100 * 100 -> Py.int_of_str (Str.zero_pad 4 n) = Some (Z.of_nat n).
Proof.
  intros Hn.
  assert (H : forallb (fun k => match Py.int_of_str (Str.zero_pad 4 k) with
                                | Some z => (z =? Z.of_nat k)%Z
                                | None => false
                                end) (seq 0 (100 * 100)) = true)
    by (vm_compute; reflexivity).
  rewrite forallb_forall in H. specialize (H n). rewrite in_seq in H.
  destruct (Py.int_of_str (Str.zero_pad 4 n)); [ | discriminate H; lia ].
  f_equal. apply Z.eqb_eq, H. lia.
Qed.

Lemma zero_pad_2_inj (n m : nat) :
  n < 100 -> m < 100 -> Str.zero_pad 2 n = Str.zero_pad 2 m -> n = m.
Proof.
  intros Hn Hm H. apply (f_equal Py.int_of_str) in H.
  rewrite !zero_pad_2_reads in H by assumption. injection H. lia.
Qed.

Lemma zero_pad_4_inj (n m : nat) :
  n < 100 * 100 -> m < 100 * 100 -> Str.zero_pad 4 n = Str.zero_pad 4 m -> n = m.
Proof.
  intros Hn Hm H. apply (f_equal Py.int_of_str) in H.
  rewrite !zero_pad_4_reads in H by assumption. injection H. lia.
Qed.

Lemma valid_datetime_bounds (t : datetime) :
  valid_datetime t = true ->
  year t < 100 * 100 /\ month t < 100 /\ day t < 100
  /\ hour t < 100 /\ minute t < 100 /\ second t < 100.
Proof.
  unfold valid_datetime. intros H.
  repeat (apply andb_prop in H as [H ?]).
  repeat match goal with
         | E : (_ <=? _) = true |- _ => apply Nat.leb_le in E
         | E : (_ <? _) = true |- _ => apply Nat.ltb_lt in E
         end.
  lia.
Qed.

Lemma zero_pad_2_length (n : nat) : n < 100 -> String.length (Str.zero_pad 2 n) = 2.
Proof. intros H. apply (matches_length "dd"), zero_pad_2_shape, H. Qed.

Lemma zero_pad_4_length (n : nat) :
  n < 100 * 100 -> String.length (Str.zero_pad 4 n) = 4.
Proof. intros H. apply (matches_length "dddd"), zero_pad_4_shape, H. Qed.

(** The time stamp determines the second it was taken in. *)
Lemma strftime_stamp_inj (t1 t2 : datetime) :
  valid_datetime t1 = true -> valid_datetime t2 = true ->
  strftime_stamp t1 = strftime_stamp t2 -> t1 = t2.
Proof.
  intros H1 H2.
  apply valid_datetime_bounds in H1 as (Hy1 & Hm1 & Hd1 & Hh1 & Hi1 & Hs1).
  apply valid_datetime_bounds in H2 as (Hy2 & Hm2 & Hd2 & Hh2 & Hi2 & Hs2).
  destruct t1 as [y1 m1 d1 h1 i1 s1], t2 as [y2 m2 d2 h2 i2 s2].
  unfold strftime_stamp, strftime_date. cbn [year month day hour minute second] in *.
  intros H. repeat (rewrite !app_assoc_string in H; cbn [append] in H).
  apply app_inj_head in H as [Ey H];
    [ | rewrite !zero_pad_4_length by assumption; reflexivity ].
  cbn [append] in H. injection H as H.
  apply app_inj_head in H as [Em H];
    [ | rewrite !zero_pad_2_length by assumption; reflexivity ].
  cbn [append] in H. injection H as H.
  apply app_inj_head in H as [Ed H];
    [ | rewrite !zero_pad_2_length by assumption; reflexivity ].
  cbn [append] in H. injection H as H.
  apply app_inj_head in H as [Eh H];
    [ | rewrite !zero_pad_2_length by assumption; reflexivity ].
  cbn [append] in H. injection H as H.
  apply app_inj_head in H as [Ei H];
    [ | rewrite !zero_pad_2_length by assumption; reflexivity ].
  cbn [append] in H. injection H as Es.
  apply zero_pad_4_inj in Ey; auto.
  apply zero_pad_2_inj in Em, Ed, Eh, Ei, Es; auto.
  congruence.
Qed.

Lemma strftime_stamp_length (t : datetime) :
  valid_datetime t = true -> String.length (strftime_stamp t) = 19.
Proof.
  intros H. apply (matches_length "dddd-dd-dd-dd-dd-dd"), strftime_stamp_shape, H.
Qed.

(** X4: two polls get the same file name only when they are of the same serial
    and in the same second. *)
Theorem data_file_name_inj (serial1 serial2 : Z) (t1 t2 : datetime) :
  valid_datetime t1 = true -> valid_datetime t2 = true ->
  data_file_name serial1 t1 = data_file_name serial2 t2 ->
  serial1 = serial2 /\ t1 = t2.
Proof.
  intros H1 H2. unfold data_file_name. intros H.
  injection H as H.
  apply app_inj_tail in H as [Hs H].
  - split.
    + assert (E : Py.int_of_str (Str.of_Z serial1) = Py.int_of_str (Str.of_Z serial2))
        by (rewrite Hs; reflexivity).
      rewrite !int_of_str_of_Z in E. congruence.
    + injection H as H.
      apply app_inj_head in H as [H _];
        [ apply strftime_stamp_inj; assumption | ].
      rewrite (strftime_stamp_length t1 H1), (strftime_stamp_length t2 H2). reflexivity.
  - simpl. rewrite !length_append.
    rewrite (strftime_stamp_length t1 H1), (strftime_stamp_length t2 H2). reflexivity.
Qed.

(** ** Reading events *)

Definition is_read (e : event) : bool :=
  match e with EvRead _ => true | _ => false end.


Definition is_now (e : event) : bool :=
  match e with EvNow => true | _ => false end.

(** Events of the configuration stage: the file and the log handler. *)
Definition is_config_access (e : event) : bool :=
  match e with
  | EvExists _ | EvLoad _ | EvFileHandler _ => true
  | _ => false
  end.

(** Calls on the device client. *)
Definition is_device_call (e : event) : bool :=
  match e with
  | EvNew _ _ | EvConnect _ | EvRead _ | EvDisconnect _ => true
  | _ => false
  end.

(** The events the loop over the devices can add. *)
Definition loop_event (e : event) : bool :=
  match e with
  | EvLog _ _ | EvNew _ _ | EvConnect _ | EvRead _ | EvDisconnect _
  | EvSleep _ | EvNow | EvWrite _ _ => true
  | _ => false
  end.


(** What [setup_logging] can add to the trace: nothing; the creation of the
    log directory; or that, the time, and the opening of the day's log file
    in that directory. *)
Inductive logging_events {value : Type} (w : World value) (tr : list event) :
  list event -> Prop :=
| logging_console : logging_events w tr []
| logging_no_directory (log_path : string) (e : pyexc) :
    os_makedirs w tr log_path = Raise e ->
    logging_events w tr [EvMakedirs log_path]
| logging_file (log_path : string) :
    os_makedirs w tr log_path = Ok tt ->
    logging_events w tr
      [EvMakedirs log_path; EvNow;
       EvFileHandler
         (Py.path_join log_path
            ("WavePlusPlus-"
             ++ strftime_date (datetime_now w (tr ++ [EvMakedirs log_path])%list)
             ++ ".log"))].

Section Configuration.

Variable value : Type.
Variable json_value : value -> string.
Variable w : World value.

(** X5: [load_config] never raises an [Exception]: a file that is not there is
    not opened and gives the empty dict; a file that cannot be loaded gives
    the empty dict after one error line that names it; any other file gives
    what [json.load] gives. *)
Theorem load_config_contains_errors (config_path : string) (fr : frame value) :
  let tr := (trace fr ++ [EvExists config_path])%list in
  (forall e, snd (load_config w config_path fr) = Raise e -> is_Exception e = false)
  /\ (path_exists w (trace fr) config_path = false ->
      load_config w config_path fr = (record fr (EvExists config_path), Ok (PDict [])))
  /\ (forall cls msg,
        path_exists w (trace fr) config_path = true ->
        json_load w tr config_path = Raise (Exception cls msg) ->
        snd (load_config w config_path fr) = Ok (PDict [])
        /\ trace (fst (load_config w config_path fr))
           = (tr ++ [EvLoad config_path;
                     EvLog ERROR ("Failed to load config file " ++ config_path
                                  ++ ": " ++ msg)])%list)
  /\ (forall cfg,
        path_exists w (trace fr) config_path = true ->
        json_load w tr config_path = Ok cfg ->
        snd (load_config w config_path fr) = Ok cfg).
Proof.
  unfold load_config, try_except_Exception, call, log, bind, ret, record. simpl.
  split; [ | split; [ | split ] ].
  - intros e.
    destruct (path_exists w (trace fr) config_path); simpl; [ | discriminate ].
    destruct (json_load w _ config_path) as [cfg | e']; simpl; [ discriminate | ].
    destruct (is_Exception e') eqn:E; simpl; [ discriminate | congruence ].
  - intros ->. reflexivity.
  - intros cls msg Hthere Hload. rewrite Hthere, Hload. simpl.
    rewrite <- app_assoc. split; reflexivity.
  - intros cfg Hthere Hload. rewrite Hthere, Hload. reflexivity.
Qed.

(** X6: whatever the configuration holds, [setup_logging] logs nothing and
    leaves the variables alone; it either touches nothing, or creates the log
    directory and, when that succeeds, opens the file named after the day in
    that directory; it raises whenever creating or opening does. *)
Theorem setup_logging_events (cfg : pyval) (fr : frame value) :
  exists evs,
    trace (fst (setup_logging w cfg fr)) = (trace fr ++ evs)%list
    /\ logging_events w (trace fr) evs
    /\ waveplus (fst (setup_logging w cfg fr)) = waveplus fr
    /\ sensors (fst (setup_logging w cfg fr)) = sensors fr
    /\ (forall log_path e,
          evs = [EvMakedirs log_path] -> os_makedirs w (trace fr) log_path = Raise e ->
          snd (setup_logging w cfg fr) = Raise e)
    /\ (forall log_path log_file_path,
          evs = [EvMakedirs log_path; EvNow; EvFileHandler log_file_path] ->
          snd (setup_logging w cfg fr)
          = file_handler w (trace fr ++ [EvMakedirs log_path; EvNow])%list log_file_path).
Proof.
  assert (Hnothing : forall r : result unit,
             exists evs,
               trace (fst (fr, r)) = (trace fr ++ evs)%list
               /\ logging_events w (trace fr) evs
               /\ waveplus (fst (fr, r)) = waveplus fr
               /\ sensors (fst (fr, r)) = sensors fr
               /\ (forall log_path e,
                     evs = [EvMakedirs log_path] ->
                     os_makedirs w (trace fr) log_path = Raise e ->
                     snd (fr, r) = Raise e)
               /\ (forall log_path log_file_path,
                     evs = [EvMakedirs log_path; EvNow; EvFileHandler log_file_path] ->
                     snd (fr, r)
                     = file_handler w (trace fr ++ [EvMakedirs log_path; EvNow])%list
                         log_file_path)).
  { intros r. exists []. rewrite app_nil_r.
    repeat split; [ constructor | discriminate | discriminate ]. }
  unfold setup_logging, lift, bind, ret.
  destruct (Py.get cfg "logging" (PDict [])) as [logging |]; [ | apply Hnothing ].
  destruct (Py.get logging "enabled" (PBool false)) as [enabled |]; [ | apply Hnothing ].
  destruct (Py.truthy enabled); [ | apply Hnothing ].
  destruct (Py.get logging "logfile" (PDict [])) as [logfile_config |]; [ | apply Hnothing ].
  destruct (Py.get logfile_config "enabled" (PBool false)) as [file_enabled |];
    [ | apply Hnothing ].
  destruct (Py.truthy file_enabled); [ | apply Hnothing ].
  destruct (Py.get logfile_config "path" (PStr "logs")) as [log_path |];
    [ | apply Hnothing ].
  destruct log_path as [ | b | z | p | l | d ]; try apply Hnothing.
  unfold makedirs, os_path_join, now, call, ret, record. simpl.
  destruct (os_makedirs w (trace fr) p) as [[] |e] eqn:E; simpl.
  - eexists. split; [ appended | ].
    repeat split; [ constructor; exact E | discriminate | ].
    intros ? ? [= <- <-]. rewrite <- app_assoc. reflexivity.
  - exists [EvMakedirs p].
    repeat split;
      [ econstructor; exact E | intros ? ? [= <-]; congruence | discriminate ].
Qed.

End Configuration.

(** ** More on the acquisition loop *)

Section Attempts.

Variable value : Type.
Variable w : World value.




(** An attempt that ends in [break] has read what [sensors] holds. *)
Lemma attempt_body_break_read (serial : Z) (attempt : nat) (fr fr1 : frame value) :
  attempt_body w serial attempt fr = (fr1, Ok Break) ->
  let h := created (trace fr) in
  let tr := (trace fr ++ [EvNew h serial; EvConnect h])%list in
  trace fr1 = (tr ++ [EvRead h; EvDisconnect h;
                      EvLog INFO "Successfully queried device."; EvDisconnect h])%list
  /\ device_read w tr h = Ok (sensors fr1)
  /\ sensors_truthy (sensors fr1) = true.
Proof.
  open_attempt. split_all; intros H; try discriminate; injection H as <-; simpl;
    rewrite <- ?app_assoc in *; simpl in *; auto.
Qed.

(** X11: when the loop ends by [break], [sensors] holds what the last [read] of
    the run returned, and that is a non-empty Snapshot: a Snapshot left by an
    earlier attempt is never the one kept. *)
Theorem acquire_keeps_last_read (serial : Z) (fr fr1 : frame value) :
  acquire w serial fr = (fr1, Ok Broke) ->
  exists tr h rest s,
    trace fr1 = (tr ++ EvRead h :: rest)%list
    /\ count is_read rest = 0
    /\ device_read w tr h = Ok (Some s)
    /\ sensors fr1 = Some s
    /\ s <> [].
Proof.
  unfold acquire. generalize (seq 0 5). intros attempts. revert fr.
  induction attempts as [| a rest IH]; intros fr; simpl.
  - discriminate.
  - unfold bind.
    destruct (attempt_body w serial a fr) as [fr' [[|] | e]] eqn:E; simpl;
      try discriminate.
    + apply IH.
    + intros [= <-].
      destruct (attempt_body_break_read _ _ _ _ E) as (Htr & Hread & Htruthy).
      destruct (sensors fr') as [[| kv s] |] eqn:Hs; try discriminate.
      do 4 eexists. split; [ exact Htr | ].
      repeat split; [ exact Hread | discriminate ].
Qed.

(** X13: an exception outside [Exception] raised in the body of the [try] (an
    interrupt during [connect] or [read]) ends the loop with that exception:
    the handler is skipped, so nothing is logged and there is no sleep, the
    remaining attempts are not made, and the cleanup has still run, on the
    object [waveplus] is bound to. *)
Theorem interrupt_ends_acquisition (serial : Z) (attempt : nat) (rest : list nat)
    (fr : frame value) (e : pyexc) :
  snd (try_block w attempt serial fr) = Raise e ->
  is_Exception e = false ->
  exists fr2 evs,
    for_attempts w serial (attempt :: rest) fr = (fr2, Raise e)
    /\ trace fr2 = (trace fr ++ evs)%list
    /\ count is_new evs = 1
    /\ count is_sleep evs = 0
    /\ count is_error evs = 0
    /\ (forall h, waveplus fr2 = Some h -> last evs EvNow = EvDisconnect h).
Proof.
  simpl. unfold bind. open_attempt. split_all; intros H He; try discriminate;
    try (injection H as ->; simpl in *; try discriminate);
    try congruence;
    (do 2 eexists; split; [ reflexivity | ]; split; [ simpl; appended | ];
     repeat split; try reflexivity; simpl; congruence).
Qed.

(** X14: the cleanup never changes how an attempt ends, whatever [disconnect]
    raises there, an interrupt included: the attempt ends as its [try] and
    [except] part did, with the same variables. *)
Theorem cleanup_is_silent (serial : Z) (attempt : nat) (fr : frame value) :
  let inner := @try_except_Exception value flow (try_block w attempt serial)
                 (except_block w attempt serial) fr in
  snd (attempt_body w serial attempt fr) = snd inner
  /\ waveplus (fst (attempt_body w serial attempt fr)) = waveplus (fst inner)
  /\ sensors (fst (attempt_body w serial attempt fr)) = sensors (fst inner)
  /\ (trace (fst (attempt_body w serial attempt fr)) = trace (fst inner)
      \/ exists h, waveplus (fst inner) = Some h
                   /\ trace (fst (attempt_body w serial attempt fr))
                      = (trace (fst inner) ++ [EvDisconnect h])%list).
Proof.
  intros inner. unfold attempt_body, try_finally, finally_block, try_except_pass.
  subst inner.
  destruct (try_except_Exception _ _ _ fr) as [fr1 r]. simpl.
  destruct (waveplus fr1) as [h |] eqn:Hw; simpl.
  - unfold disconnect, call, record. simpl. repeat split; auto.
    right. exists h. auto.
  - repeat split; auto.
Qed.

End Attempts.

(** ** More on the run *)

Lemma attempt_event_loop_event (e : event) : attempt_event e = true -> loop_event e = true.
Proof. destruct e as [ | | | | | | [ | | ] msg | | | | | | ]; simpl; auto. Qed.

Lemma loop_events_weaken (evs : list event) :
  forallb attempt_event evs = true -> forallb loop_event evs = true.
Proof.
  rewrite !forallb_forall. intros H e He. apply attempt_event_loop_event, H, He.
Qed.

Lemma loop_events_count (p : event -> bool) (evs : list event) :
  (forall e, loop_event e = true -> p e = false) ->
  forallb loop_event evs = true -> count p evs = 0.
Proof.
  intros Hp. unfold count. induction evs as [| e evs IH]; simpl; auto.
  intros H. apply andb_prop in H as [He Hevs].
  rewrite (Hp e He). auto.
Qed.

(** A descriptor without a usable serial raises an [Exception]: [KeyError],
    [TypeError] or [ValueError]. *)
Lemma serial_of_raises (device : pyval) (e : pyexc) :
  serial_of device = Raise e -> is_Exception e = true.
Proof.
  unfold serial_of, Py.getitem, Py.int.
  destruct device as [ | b | z | s | l | d ]; simpl; try (intros [= <-]; reflexivity).
  destruct (Py.lookup "serial" d) as [[ | b | z | s | l | d' ] |]; simpl;
    try (intros [= <-]; reflexivity); try discriminate.
  destruct (Py.int_of_str s); [ discriminate | intros [= <-]; reflexivity ].
Qed.

Lemma descriptors_have_serial (serials : list Z) :
  Forall has_serial (map descriptor serials).
Proof.
  apply Forall_forall. intros d Hd. apply in_map_iff in Hd as (z & <- & _).
  exists z. reflexivity.
Qed.

Lemma parse_device_serials_ok (serial_string : string) (devices : list pyval) :
  parse_device_serials serial_string = Ok devices ->
  exists serials, devices = map descriptor serials.
Proof.
  unfold parse_device_serials. destruct (all_some _) as [zs |]; [ | discriminate ].
  intros [= <-]. eauto.
Qed.

Section Run.

Variable value : Type.
Variable json_value : value -> string.
Variable w : World value.

Lemma save_loop_events (data_path : pyval) (serial : Z) (fr : frame value) :
  exists evs,
    trace (fst (save json_value w data_path serial fr)) = (trace fr ++ evs)%list
    /\ forallb loop_event evs = true.
Proof.
  unfold save, now, os_path_join, try_except_Exception, load_sensors, write, log,
    call, lift, bind, ret, record. simpl.
  destruct data_path; simpl;
    try (eexists; split; [ appended | reflexivity ]).
  split_all; (eexists; split; [ appended | reflexivity ]).
Qed.

(** The work on one descriptor only adds events of the device loop. *)
Lemma device_body_loop_events (data_path device : pyval) (fr : frame value) :
  exists evs,
    trace (fst (device_body json_value w data_path device fr)) = (trace fr ++ evs)%list
    /\ forallb loop_event evs = true.
Proof.
  assert (Hnothing : forall r : result unit,
             exists evs, trace (fst (fr, r)) = (trace fr ++ evs)%list
                         /\ forallb loop_event evs = true).
  { intros r. exists []. rewrite app_nil_r. auto. }
  destruct (serial_of device) as [serial | e] eqn:Hserial.
  - assert (exists device_name, name_of device serial = Ok device_name) as [device_name Hname].
    { unfold serial_of, name_of in *. destruct device; simpl in *; try discriminate.
      destruct (Py.lookup "name" d); eauto. }
    rewrite (device_body_unfold value json_value w _ _ _ _ _ Hserial Hname).
    destruct (for_attempts_appends value w serial (seq 0 5) (polling fr device_name serial))
      as (evs & Htr & Hev).
    fold (acquire w serial) in Htr. apply loop_events_weaken in Hev.
    destruct (acquire w serial (polling fr device_name serial)) as [fr1 [[|] | e]];
      simpl in Htr.
    + destruct (save_loop_events data_path serial fr1) as (evs' & Htr' & Hev').
      exists (EvLog INFO (query_message device_name serial) :: evs ++ evs')%list.
      rewrite Htr', Htr. simpl. rewrite <- !app_assoc, forallb_app, Hev, Hev'.
      split; reflexivity.
    + eexists (EvLog INFO (query_message device_name serial) :: evs ++ [_])%list.
      simpl. rewrite Htr. simpl.
      rewrite <- !app_assoc, forallb_app, Hev. split; reflexivity.
    + exists (EvLog INFO (query_message device_name serial) :: evs)%list.
      simpl. rewrite Htr. simpl. rewrite <- !app_assoc, Hev. split; reflexivity.
  - unfold device_body, bind, lift. unfold serial_of in Hserial.
    destruct (Py.getitem device "serial") as [item |]; [ | apply Hnothing ].
    rewrite Hserial. apply Hnothing.
Qed.

Lemma for_devices_loop_events (data_path : pyval) (devices : list pyval) :
  forall fr : frame value,
  exists evs,
    trace (fst (for_devices json_value w data_path devices fr)) = (trace fr ++ evs)%list
    /\ forallb loop_event evs = true.
Proof.
  induction devices as [| device rest IH]; intros fr; simpl.
  - exists []. rewrite app_nil_r. auto.
  - unfold bind.
    destruct (device_body_loop_events data_path device fr) as (evs & Htr & Hev).
    destruct (device_body json_value w data_path device fr) as [fr1 [[] | e]];
      simpl in Htr; [ | exists evs; auto ].
    destruct (IH fr1) as (evs' & Htr' & Hev').
    exists (evs ++ evs')%list. rewrite Htr', Htr, app_assoc, forallb_app, Hev, Hev'. auto.
Qed.

(** A descriptor without a usable serial: the work on it raises at once. *)
Lemma device_body_no_serial (data_path device : pyval) (e : pyexc) (fr : frame value) :
  serial_of device = Raise e ->
  device_body json_value w data_path device fr = (fr, Raise e).
Proof.
  unfold device_body, bind, lift, serial_of.
  destruct (Py.getitem device "serial") as [item |].
  - intros ->. reflexivity.
  - intros [= <-]. reflexivity.
Qed.

(** The loop over devices that all have a serial, in a world without
    interrupts, followed by whatever comes after them. *)
Lemma for_devices_prefix (p : string) (before : list pyval) :
  orderly w -> Forall has_serial before ->
  forall fr : frame value,
  exists fr1 runs,
    trace fr1 = (trace fr ++ List.concat runs)%list
    /\ Forall2 device_run before runs
    /\ forall after,
         for_devices json_value w (PStr p) (before ++ after) fr
         = for_devices json_value w (PStr p) after fr1.
Proof.
  intros Hw Hall. induction Hall as [| device rest Hdevice Hrest IH]; intros fr.
  - exists fr, []. simpl. rewrite app_nil_r. auto.
  - destruct (device_body_contained value json_value w p device fr Hw Hdevice)
      as (fr1 & evs & Hto & Htr & Hrun).
    destruct (IH fr1) as (fr2 & runs & Htr' & Hruns & Hafter).
    exists fr2, (evs :: runs). split; [ | split ].
    + rewrite Htr', Htr. simpl. rewrite app_assoc. reflexivity.
    + constructor; assumption.
    + intros after. simpl. unfold bind. rewrite Hto. apply Hafter.
Qed.

(** X9: a descriptor without a usable serial ends the loop over the devices
    with an [Exception], in a world without interrupts: the descriptors before
    it have been worked on, each to its report; nothing is done for it or for
    those after it. *)
Theorem missing_serial_aborts_run (p : string) (before after : list pyval)
    (device : pyval) (e : pyexc) (fr : frame value) :
  orderly w -> Forall has_serial before ->
  serial_of device = Raise e ->
  exists fr1 runs,
    for_devices json_value w (PStr p) (before ++ device :: after) fr = (fr1, Raise e)
    /\ is_Exception e = true
    /\ trace fr1 = (trace fr ++ List.concat runs)%list
    /\ Forall2 device_run before runs.
Proof.
  intros Hw Hall Hserial.
  destruct (for_devices_prefix p before Hw Hall fr) as (fr1 & runs & Htr & Hruns & Hafter).
  exists fr1, runs. rewrite Hafter. repeat split; auto.
  - simpl. unfold bind. rewrite (device_body_no_serial _ _ _ _ Hserial). reflexivity.
  - eapply serial_of_raises, Hserial.
Qed.

(** Whether the loop ended by [break]. *)
Definition broke (r : frame value * result loop_end) : bool :=
  match snd r with
  | Ok Broke => true
  | _ => false
  end.

(** X12: the work on a descriptor asks the time and writes a file exactly when
    its acquisition loop ended by [break], and then once: a device that was
    not read leaves no file. *)
Theorem writes_only_after_break (p : string) (device device_name : pyval)
    (serial : Z) (fr : frame value) :
  serial_of device = Ok serial ->
  name_of device serial = Ok device_name ->
  exists evs,
    trace (fst (device_body json_value w (PStr p) device fr)) = (trace fr ++ evs)%list
    /\ count is_write evs
       = (if broke (acquire w serial (polling fr device_name serial)) then 1 else 0)
    /\ count is_now evs = count is_write evs.
Proof.
  intros Hserial Hname.
  rewrite (device_body_unfold value json_value w _ _ _ _ _ Hserial Hname).
  destruct (for_attempts_appends value w serial (seq 0 5) (polling fr device_name serial))
    as (evs & Htr & Hev).
  fold (acquire w serial) in Htr.
  assert (Hw : count is_write evs = 0)
    by (apply attempt_events_count; auto; intros x Hx; apply attempt_event_no_query, Hx).
  assert (Hn : count is_now evs = 0).
  { apply attempt_events_count; auto.
    intros [ | | | | | | [ | | ] msg | | | | | | ]; simpl; auto; discriminate. }
  unfold broke.
  destruct (acquire w serial (polling fr device_name serial)) as [fr1 [[|] | e]];
    simpl in *.
  - unfold save, now, os_path_join, try_except_Exception, load_sensors, write, log,
      call, lift, bind, ret, record. simpl.
    split_all;
      (eexists; split; [ rewrite Htr; simpl; rewrite <- !app_assoc; simpl; reflexivity | ];
       change (?a :: evs ++ ?l)%list with ([a] ++ evs ++ l)%list;
       rewrite !count_app, Hw, Hn; split; reflexivity).
  - eexists. split; [ rewrite Htr; simpl; rewrite <- !app_assoc; simpl; reflexivity | ].
    change (?a :: evs ++ ?l)%list with ([a] ++ evs ++ l)%list.
    rewrite !count_app, Hw, Hn; split; reflexivity.
  - exists (EvLog INFO (query_message device_name serial) :: evs)%list.
    split; [ rewrite Htr, <- app_assoc; reflexivity | ].
    change (?a :: evs)%list with ([a] ++ evs)%list.
    rewrite !count_app, Hw, Hn; split; reflexivity.
Qed.

End Run.

(** ** The whole script *)

Section Whole.

Variable value : Type.
Variable json_value : value -> string.
Variable w : World value.

(** [main] with serials on the command line: lines 84-91, then 102-110. *)
Lemma main_with_serials (args : namespace) (a : ascii) (rest : string) :
  parse_args w = Ok args ->
  device_serial args = Some (String a rest) ->
  main json_value w start =
  match parse_device_serials (String a rest) with
  | Raise e => (mkFrame [EvParseArgs] None None, Raise e)
  | Ok devices =>
      let tr := [EvParseArgs; EvLog INFO "Script Initialized"] in
      match os_makedirs w tr "data" with
      | Raise e => (mkFrame (tr ++ [EvMakedirs "data"])%list None None, Raise e)
      | Ok _ =>
          for_devices json_value w (PStr "data") devices
            (mkFrame (tr ++ [EvMakedirs "data"; EvLog INFO "Output path: data"])%list
                     None None)
      end
  end.
Proof.
  intros Hargs Hserial.
  unfold main, resolve, call, bind, lift, ret, record. simpl.
  rewrite Hargs, Hserial.
  destruct (parse_device_serials (String a rest)) as [devices | e]; [ | reflexivity ].
  unfold makedirs, log, call, record. simpl.
  destruct (os_makedirs w _ "data") as [[] | e]; reflexivity.
Qed.

(** What the guard adds to the trace of [main]: at most one log line. *)
Lemma script_trace :
  exists evs,
    fst (script json_value w) = (trace (fst (main json_value w start)) ++ evs)%list
    /\ forallb loop_event evs = true.
Proof.
  unfold script, guard, log, sys_exit, lift, bind, record.
  destruct (main json_value w start) as [fr [[] | [cls msg | | code | cls msg]]]; simpl;
    try (exists []; rewrite app_nil_r; auto; fail);
    (eexists; split; [ reflexivity | reflexivity ]).
Qed.

(** X7: with serials on the command line the configuration file is neither
    looked for nor read, and no log file is opened, whatever the world does. *)
Theorem serials_bypass_configuration (args : namespace) (a : ascii) (rest : string) :
  parse_args w = Ok args ->
  device_serial args = Some (String a rest) ->
  count is_config_access (fst (script json_value w)) = 0.
Proof.
  intros Hargs Hserial.
  destruct script_trace as (tail & -> & Htail).
  rewrite count_app, (loop_events_count _ tail) by (auto; intros []; simpl; auto; discriminate).
  rewrite (main_with_serials args a rest Hargs Hserial).
  destruct (parse_device_serials (String a rest)) as [devices | e]; [ | reflexivity ].
  simpl. destruct (os_makedirs w _ "data") as [[] | e]; [ | reflexivity ].
  match goal with
  | |- context [for_devices json_value w ?p devices ?fr] =>
      destruct (for_devices_loop_events value json_value w p devices fr) as (evs & -> & Hev)
  end.
  simpl. change (?x :: ?y :: ?z :: ?u :: evs)%list with ([x; y; z; u] ++ evs)%list.
  rewrite count_app, (loop_events_count _ evs) by (auto; intros []; simpl; auto; discriminate).
  reflexivity.
Qed.

(** X8: a serial list with a piece that is no integer ends the script before
    anything is set up: one error line, exit status 1, no directory made and
    no device created. *)
Theorem bad_serial_list_is_fatal (args : namespace) (a : ascii) (rest : string) :
  parse_args w = Ok args ->
  device_serial args = Some (String a rest) ->
  (exists piece, In piece (Str.split "," (String a rest))
                 /\ Py.int_of_str (Str.strip piece) = None) ->
  script json_value w
  = ([EvParseArgs;
      EvLog ERROR
        ("Script failed with error: Invalid serial number passed. Must be integers separated by commas. Received: "
         ++ String a rest)], 1%Z).
Proof.
  intros Hargs Hserial (piece & Hin & Hnone).
  unfold script, guard. rewrite (main_with_serials args a rest Hargs Hserial).
  unfold parse_device_serials.
  replace (all_some (map (fun x => Py.int_of_str (Str.strip x))
                         (Str.split "," (String a rest))))
    with (@None (list Z)); [ reflexivity | ].
  symmetry. apply all_some_None. rewrite <- Hnone.
  apply (in_map (fun x => Py.int_of_str (Str.strip x))), Hin.
Qed.

(** X15: with a list of integers on the command line, in a world without
    interrupts where the directory [data] can be made, the script exits with 0
    after working on every serial of the list, in order, each to its report. *)
Theorem serials_run_to_the_end (args : namespace) (a : ascii) (rest : string)
    (devices : list pyval) :
  orderly w ->
  parse_args w = Ok args ->
  device_serial args = Some (String a rest) ->
  parse_device_serials (String a rest) = Ok devices ->
  (forall tr, os_makedirs w tr "data" = Ok tt) ->
  exists runs,
    script json_value w
    = (([EvParseArgs; EvLog INFO "Script Initialized"; EvMakedirs "data";
         EvLog INFO "Output path: data"] ++ List.concat runs)%list, 0%Z)
    /\ Forall2 device_run devices runs.
Proof.
  intros Hw Hargs Hserial Hparse Hdirs.
  destruct (parse_device_serials_ok _ _ Hparse) as (serials & ->).
  unfold script, guard. rewrite (main_with_serials args a rest Hargs Hserial), Hparse.
  simpl. rewrite Hdirs.
  match goal with
  | |- context [for_devices json_value w (PStr "data") ?ds ?fr] =>
      destruct (for_devices_prefix value json_value w "data" ds Hw
                  (descriptors_have_serial serials) fr)
        as (fr1 & runs & Htr & Hruns & Hafter);
      specialize (Hafter []); rewrite app_nil_r in Hafter; rewrite Hafter
  end.
  exists runs. simpl. rewrite Htr. auto.
Qed.

(** X16: with no serials on the command line and a configuration file that
    lists devices with serials, sets up no [logging] section and gives (or
    leaves to the default) the output directory [p], in a world without
    interrupts where [p] can be made, the script exits with 0 after working on
    every listed device, in order, each to its report. *)
Theorem configured_run_to_the_end (args : namespace) (c : list (string * pyval))
    (devices : list pyval) (output : pyval) (p : string) :
  orderly w ->
  parse_args w = Ok args ->
  no_cli_serials args ->
  path_exists w [EvParseArgs] (config args) = true ->
  json_load w [EvParseArgs; EvExists (config args)] (config args) = Ok (PDict c) ->
  Py.lookup "devices" c = Some (PList devices) ->
  Py.lookup "logging" c = None ->
  Py.get (PDict c) "output" (PDict []) = Ok output ->
  Py.get output "path" (PStr "data") = Ok (PStr p) ->
  Forall has_serial devices ->
  (forall tr, os_makedirs w tr p = Ok tt) ->
  exists runs,
    script json_value w
    = (([EvParseArgs; EvExists (config args); EvLoad (config args);
         EvLog INFO "Script Initialized"; EvMakedirs p;
         EvLog INFO ("Output path: " ++ p)] ++ List.concat runs)%list, 0%Z)
    /\ Forall2 device_run devices runs.
Proof.
  intros Hw Hargs Hcli Hthere Hload Hdevices Hlogging Houtput Hpath Hall Hdirs.
  assert (Htruthy : Py.truthy (PDict c) = true)
    by (destruct c; [ discriminate Hdevices | reflexivity ]).
  assert (Hbranch : match device_serial args with
                    | Some (String _ _) => False
                    | _ => True
                    end)
    by (destruct Hcli as [-> | ->]; exact I).
  assert (Hget : Py.get (PDict c) "devices" (PList []) = Ok (PList devices))
    by (simpl; rewrite Hdevices; reflexivity).
  assert (Hlog : Py.get (PDict c) "logging" (PDict []) = Ok (PDict []))
    by (simpl; rewrite Hlogging; reflexivity).
  unfold script, guard, main, resolve, load_config, try_except_Exception, setup_logging,
    makedirs, call, log, lift, bind, ret, record.
  cbn -[Py.get Py.truthy]. rewrite Hargs.
  destruct (device_serial args) as [[| a rest] |]; try contradiction;
    cbn -[Py.get Py.truthy]; rewrite Hthere; cbn -[Py.get Py.truthy];
    rewrite Hload; cbn -[Py.get Py.truthy];
    rewrite Htruthy; cbn -[Py.get Py.truthy];
    rewrite Hget, Houtput, Hpath; cbn -[Py.get Py.truthy];
    rewrite Hlog; simpl;
    rewrite Hdirs; simpl;
    match goal with
    | |- context [for_devices json_value w (PStr p) devices ?fr] =>
        destruct (for_devices_prefix value json_value w p devices Hw Hall fr)
          as (fr1 & runs & Htr & Hruns & Hafter);
        specialize (Hafter []); rewrite app_nil_r in Hafter; rewrite Hafter
    end;
    exists runs; simpl; rewrite Htr; auto.
Qed.


(** X18: a configuration file that holds a true value other than an object (a
    list, a number, a text, [true]) ends the script at line 98 with exit
    status 1: nothing is set up and no device is created. *)
Theorem config_must_be_an_object (args : namespace) (cfg : pyval) :
  parse_args w = Ok args ->
  no_cli_serials args ->
  path_exists w [EvParseArgs] (config args) = true ->
  json_load w [EvParseArgs; EvExists (config args)] (config args) = Ok cfg ->
  Py.truthy cfg = true ->
  (forall d, cfg <> PDict d) ->
  script json_value w
  = ([EvParseArgs; EvExists (config args); EvLoad (config args);
      EvLog ERROR ("Script failed with error: '" ++ Py.type_name cfg
                   ++ "' object has no attribute 'get'")], 1%Z).
Proof.
  intros Hargs Hcli Hthere Hload Htruthy Hshape.
  assert (Hbranch : match device_serial args with
                    | Some (String _ _) => False
                    | _ => True
                    end)
    by (destruct Hcli as [-> | ->]; exact I).
  assert (Hget : Py.get cfg "devices" (PList [])
                 = Raise (Exception "AttributeError"
                            ("'" ++ Py.type_name cfg ++ "' object has no attribute 'get'"))).
  { destruct cfg; try reflexivity. destruct (Hshape d). reflexivity. }
  unfold script, guard, main, resolve, load_config, try_except_Exception, call, log,
    sys_exit, lift, bind, ret, record.
  cbn -[Py.get Py.truthy Py.type_name append]. rewrite Hargs.
  destruct (device_serial args) as [[| a rest] |]; try contradiction;
    cbn -[Py.get Py.truthy Py.type_name append]; rewrite Hthere;
    cbn -[Py.get Py.truthy Py.type_name append]; rewrite Hload;
    cbn -[Py.get Py.truthy Py.type_name append]; rewrite Htruthy;
    cbn -[Py.get Py.truthy Py.type_name append]; rewrite Hget; reflexivity.
Qed.

End Whole.

(** ** Further scenarios *)

Module Scenario2.

Import Scenario.

(** The user interrupts the first [read]. *)
Definition interrupted_read : World Z :=
  world one_device None
    (fun _ _ => Ok tt) (fun _ _ => Ok tt)
    (fun _ _ => Raise KeyboardInterrupt)
    (fun _ _ => Ok tt) never.

(** Three descriptors, the second without a serial. *)
Definition one_without_serial : list pyval :=
  [descriptor 1; PDict [("name", PStr "Porch")]; descriptor 2].


(** The configuration file holds a list of serials, not an object. *)
Definition list_config : World Z :=
  world no_args (Some (PList [PInt 7]))
    (fun _ _ => Ok tt) (fun _ _ => Ok tt) (fun _ _ => Ok (Some reading))
    (fun _ _ => Ok tt) never.

End Scenario2.

Section Scenarios2.

Import Scenario Scenario2.

Lemma healthy_is_orderly : orderly healthy.
Proof. constructor; intros; simpl; auto. Qed.

(** X1 at two serials with a blank. *)
Lemma two_serials_parsed :
  exists serials,
    [descriptor 7; descriptor 8] = map descriptor serials
    /\ Forall2 (fun piece z => Py.int_of_str (Str.strip piece) = Some z)
               (Str.split "," "7, 8") serials
    /\ Forall has_serial [descriptor 7; descriptor 8]
    /\ Forall (fun device => Py.getitem device "name" = Ok PNone)
              [descriptor 7; descriptor 8].
Proof.
  apply (parse_device_serials_descriptors "7, 8" [descriptor 7; descriptor 8]).
  reflexivity.
Defined.


(** X4 at two polls that do share a name. *)
Lemma same_name_same_poll : 7%Z = 7%Z /\ noon = noon.
Proof. apply (data_file_name_inj 7 7 noon noon); reflexivity. Defined.

(** Polls of one device a second apart get different names. *)
Example next_second_other_name :
  data_file_name 7 noon <> data_file_name 7 (mkDatetime 2024 3 9 12 0 6).
Proof. vm_compute. discriminate. Qed.

(** X7 at a run with a serial. *)
Lemma healthy_bypasses_configuration :
  count is_config_access (fst (script Str.of_Z healthy)) = 0.
Proof.
  apply (serials_bypass_configuration Z Str.of_Z healthy
           (mkArgs "config.json" (Some "2930012345")) "2" "930012345");
    reflexivity.
Defined.

(** X8 at [--device-serial 7,x]. *)
Lemma bad_serial_is_fatal :
  script Str.of_Z bad_serial
  = ([EvParseArgs;
      EvLog ERROR
        ("Script failed with error: Invalid serial number passed. Must be integers separated by commas. Received: "
         ++ "7,x")], 1%Z).
Proof.
  apply (bad_serial_list_is_fatal Z Str.of_Z bad_serial
           (mkArgs "config.json" (Some "7,x")) "7" ",x").
  - reflexivity.
  - reflexivity.
  - exists "x". split; [ simpl; auto | reflexivity ].
Defined.

(** X9 at three descriptors, the second without a serial. *)
Lemma porch_aborts_run :
  exists fr1 runs,
    for_devices Str.of_Z healthy (PStr "data") ([descriptor 1] ++ PDict [("name", PStr "Porch")] :: [descriptor 2]) start
    = (fr1, Raise (Exception "KeyError" "'serial'"))
    /\ is_Exception (Exception "KeyError" "'serial'") = true
    /\ trace fr1 = (trace (@start Z) ++ List.concat runs)%list
    /\ Forall2 device_run [descriptor 1] runs.
Proof.
  apply (missing_serial_aborts_run Z Str.of_Z healthy "data" [descriptor 1]
           [descriptor 2] (PDict [("name", PStr "Porch")])
           (Exception "KeyError" "'serial'") start).
  - exact healthy_is_orderly.
  - repeat constructor. exists 1%Z. reflexivity.
  - reflexivity.
Defined.

(** The second device is never created in that run. *)
Example porch_run_stops :
  count is_new (trace (fst (for_devices Str.of_Z healthy (PStr "data") one_without_serial start))) = 1.
Proof. vm_compute. reflexivity. Qed.

(** X11 at a device that answers at once. *)
Lemma healthy_keeps_its_read :
  exists tr h rest s,
    trace (fst (acquire healthy 7 start)) = (tr ++ EvRead h :: rest)%list
    /\ count is_read rest = 0
    /\ device_read healthy tr h = Ok (Some s)
    /\ sensors (fst (acquire healthy 7 start)) = Some s
    /\ s <> [].
Proof.
  apply (acquire_keeps_last_read Z healthy 7 start (fst (acquire healthy 7 start))).
  reflexivity.
Defined.

(** X12 at a device that answers at once, and at one that never does. *)
Lemma writes_follow_the_loop :
  (exists evs,
     trace (fst (device_body Str.of_Z healthy (PStr "data") (descriptor 7) start))
     = (trace (@start Z) ++ evs)%list
     /\ count is_write evs = 1
     /\ count is_now evs = count is_write evs)
  /\ (exists evs,
        trace (fst (device_body Str.of_Z silent (PStr "data") (descriptor 7) start))
        = (trace (@start Z) ++ evs)%list
        /\ count is_write evs = 0
        /\ count is_now evs = count is_write evs).
Proof.
  split.
  - apply (writes_only_after_break Z Str.of_Z healthy "data" (descriptor 7) PNone 7 start);
      reflexivity.
  - apply (writes_only_after_break Z Str.of_Z silent "data" (descriptor 7) PNone 7 start);
      reflexivity.
Defined.

(** X13 at an interrupt during the first [read]. *)
Lemma interrupted_read_ends_loop :
  exists fr2 evs,
    for_attempts interrupted_read 7 (0 :: [1; 2; 3; 4]) start = (fr2, Raise KeyboardInterrupt)
    /\ trace fr2 = (trace (@start Z) ++ evs)%list
    /\ count is_new evs = 1
    /\ count is_sleep evs = 0
    /\ count is_error evs = 0
    /\ (forall h, waveplus fr2 = Some h -> last evs EvNow = EvDisconnect h).
Proof.
  apply (interrupt_ends_acquisition Z interrupted_read 7 0 [1; 2; 3; 4] start
           KeyboardInterrupt); reflexivity.
Defined.

(** The script then ends with status 0, after the cleanup. *)
Example interrupted_read_script :
  script Str.of_Z interrupted_read
  = ([EvParseArgs; EvLog INFO "Script Initialized"; EvMakedirs "data";
      EvLog INFO "Output path: data"; EvLog INFO "Querying Device None (Serial: 7)";
      EvNew 0 7; EvConnect 0; EvRead 0; EvDisconnect 0;
      EvLog INFO "Script interrupted by user"], 0%Z).
Proof. vm_compute. reflexivity. Qed.

(** X15 at a run with one serial. *)
Lemma healthy_run_ends :
  exists runs,
    script Str.of_Z healthy
    = (([EvParseArgs; EvLog INFO "Script Initialized"; EvMakedirs "data";
         EvLog INFO "Output path: data"] ++ List.concat runs)%list, 0%Z)
    /\ Forall2 device_run [descriptor 2930012345] runs.
Proof.
  apply (serials_run_to_the_end Z Str.of_Z healthy
           (mkArgs "config.json" (Some "2930012345")) "2" "930012345"
           [descriptor 2930012345]).
  - exact healthy_is_orderly.
  - reflexivity.
  - reflexivity.
  - reflexivity.
  - reflexivity.
Defined.

(** X16 at the run over three configured devices. *)
Lemma mixed_run_ends :
  exists runs,
    script Str.of_Z mixed
    = (([EvParseArgs; EvExists "config.json"; EvLoad "config.json";
         EvLog INFO "Script Initialized"; EvMakedirs "data";
         EvLog INFO ("Output path: " ++ "data")] ++ List.concat runs)%list, 0%Z)
    /\ Forall2 device_run three_devices runs.
Proof.
  apply (configured_run_to_the_end Z Str.of_Z mixed no_args
           [("devices", PList three_devices)] three_devices (PDict []) "data").
  - constructor; intros; simpl;
      repeat match goal with
             | |- context [if ?c then _ else _] => destruct c
             end; simpl; auto.
  - reflexivity.
  - left. reflexivity.
  - reflexivity.
  - reflexivity.
  - reflexivity.
  - reflexivity.
  - reflexivity.
  - reflexivity.
  - repeat constructor; eexists; reflexivity.
  - reflexivity.
Defined.


(** X18 at a configuration file that is a list. *)
Lemma list_config_is_fatal :
  script Str.of_Z list_config
  = ([EvParseArgs; EvExists (config no_args); EvLoad (config no_args);
      EvLog ERROR ("Script failed with error: '" ++ Py.type_name (PList [PInt 7])
                   ++ "' object has no attribute 'get'")], 1%Z).
Proof.
  apply (config_must_be_an_object Z Str.of_Z list_config no_args (PList [PInt 7]));
    try reflexivity.
  - left. reflexivity.
  - discriminate.
Defined.

End Scenarios2.
